(** * media_kit_video/windows/d3d11_renderer.cc

    A shallow embedding of the Direct3D 11 shared-texture renderer of
    media_kit and the properties of its resource handling.

    The renderer talks to Win32, DXGI and Direct3D.  Every call that
    crosses that boundary is recorded, in program order, in a trace; what
    the platform answers (result codes and out-parameters) is an argument of
    the method that makes the call, so every statement below quantifies over
    all answers the platform may give. *)

From Stdlib Require Import ZArith List String Bool Lia.
Import ListNotations.

Local Open Scope string_scope.
Local Open Scope list_scope.
Local Open Scope Z_scope.

(** ** Platform types *)

(** Interface pointers and handles are addresses; the null pointer is 0. *)
Definition ptr := Z.
Definition nullptr : ptr := 0.
Definition HANDLE := Z.
Definition NULL : HANDLE := 0.

Definition is_null (p : ptr) : bool := p =? nullptr.

(** winerror.h: an HRESULT is a signed 32-bit value, negative on failure. *)
Definition HRESULT := Z.
Definition FAILED (hr : HRESULT) : bool := hr <? 0.
Definition SUCCEEDED (hr : HRESULT) : bool := 0 <=? hr.

(** winbase.h *)
Definition INFINITE : Z := 0xFFFFFFFF.

(** limits.h *)
Definition INT_MAX : Z := 2 ^ 31 - 1.
Definition INT_MIN : Z := - 2 ^ 31.

(** Conversion of an [int32_t] to [UINT]. *)
Definition to_UINT (n : Z) : Z := n mod 2 ^ 32.

Inductive D3D_DRIVER_TYPE :=
| D3D_DRIVER_TYPE_UNKNOWN
| D3D_DRIVER_TYPE_HARDWARE
| D3D_DRIVER_TYPE_REFERENCE
| D3D_DRIVER_TYPE_NULL
| D3D_DRIVER_TYPE_SOFTWARE
| D3D_DRIVER_TYPE_WARP.

(** d3dcommon.h *)
Definition D3D_FEATURE_LEVEL_9_3 : Z := 0x9300.
Definition D3D_FEATURE_LEVEL_10_0 : Z := 0xa000.
Definition D3D_FEATURE_LEVEL_10_1 : Z := 0xa100.
Definition D3D_FEATURE_LEVEL_11_0 : Z := 0xb000.
Definition D3D_FEATURE_LEVEL_11_1 : Z := 0xb100.

(** d3d11.h, dxgiformat.h *)
Definition D3D11_SDK_VERSION : Z := 7.
Definition DXGI_FORMAT_B8G8R8A8_UNORM : Z := 87.
Definition D3D11_USAGE_DEFAULT : Z := 0.
Definition D3D11_BIND_SHADER_RESOURCE : Z := 0x8.
Definition D3D11_BIND_RENDER_TARGET : Z := 0x20.
Definition D3D11_RESOURCE_MISC_SHARED : Z := 0x2.

Record D3D11_TEXTURE2D_DESC := {
  Width : Z;
  Height : Z;
  MipLevels : Z;
  ArraySize : Z;
  Format : Z;
  SampleDesc_Count : Z;
  SampleDesc_Quality : Z;
  Usage : Z;
  BindFlags : Z;
  CPUAccessFlags : Z;
  MiscFlags : Z
}.

Inductive IID := IID_IDXGIDevice | IID_IDXGIResource.

(** One item written to [std::cout]. *)
Inductive Printed :=
| Str (s : string)
| Num (n : Z).

(** ** Calls that leave the renderer

    Each constructor is one call, with the arguments passed and, where the
    call has any, the result code and the out-parameters after the call. *)
Inductive Call :=
| CreateMutex (result : HANDLE)
| WaitForSingleObject (h : HANDLE) (milliseconds : Z)
| ReleaseMutex (h : HANDLE)
| CloseHandle (h : HANDLE)
| Flush (context : ptr)
| Release (object : ptr)
| AddRef (object : ptr)
| IsWindows10RTMOrGreater (result : bool)
| CreateDXGIFactory (factory : ptr)
| EnumAdapters (factory : ptr) (index : Z) (adapter : ptr)
| D3D11CreateDevice (adapter : ptr) (driver_type : D3D_DRIVER_TYPE)
    (feature_levels : list Z) (sdk_version : Z)
    (hr : HRESULT) (device context : ptr)
| QueryInterface (object : ptr) (iid : IID) (hr : HRESULT) (out : ptr)
| SetGPUThreadPriority (dxgi_device : ptr) (priority : Z)
| GetFeatureLevel (device : ptr) (level : Z)
| CreateTexture2D (device : ptr) (desc : D3D11_TEXTURE2D_DESC)
    (hr : HRESULT) (texture : ptr)
| GetSharedHandle (resource : ptr) (hr : HRESULT) (handle : HANDLE)
| cout (line : list Printed).

(** ** The renderer object *)

(** Modelled from the spec: the class declaration (d3d11_renderer.h) is not
    among the sources.  The members are the ones the methods use.
    [shared_texture_] is used through [.As(&resource)], the method of
    [Microsoft::WRL::ComPtr], so it is a [ComPtr<ID3D11Texture2D>]: taking
    its address releases what it holds and clears it, and assigning
    [nullptr] releases what it holds.  [d3d_11_device_] and
    [d3d_11_device_context_] are released by hand and are raw interface
    pointers.  The spec's data model (one device, one context, one texture,
    one mutex, [width], [height], [exported_handle]) is this record. *)
Record D3D11Renderer := {
  width_ : Z;
  height_ : Z;
  handle_ : HANDLE;
  mutex_ : HANDLE;
  d3d_11_device_ : ptr;
  d3d_11_device_context_ : ptr;
  shared_texture_ : ptr
}.

Definition with_size (w h : Z) (r : D3D11Renderer) : D3D11Renderer :=
  {| width_ := w; height_ := h; handle_ := handle_ r; mutex_ := mutex_ r;
     d3d_11_device_ := d3d_11_device_ r;
     d3d_11_device_context_ := d3d_11_device_context_ r;
     shared_texture_ := shared_texture_ r |}.

Definition with_handle (h : HANDLE) (r : D3D11Renderer) : D3D11Renderer :=
  {| width_ := width_ r; height_ := height_ r; handle_ := h;
     mutex_ := mutex_ r; d3d_11_device_ := d3d_11_device_ r;
     d3d_11_device_context_ := d3d_11_device_context_ r;
     shared_texture_ := shared_texture_ r |}.

Definition with_mutex (m : HANDLE) (r : D3D11Renderer) : D3D11Renderer :=
  {| width_ := width_ r; height_ := height_ r; handle_ := handle_ r;
     mutex_ := m; d3d_11_device_ := d3d_11_device_ r;
     d3d_11_device_context_ := d3d_11_device_context_ r;
     shared_texture_ := shared_texture_ r |}.

Definition with_device (d : ptr) (r : D3D11Renderer) : D3D11Renderer :=
  {| width_ := width_ r; height_ := height_ r; handle_ := handle_ r;
     mutex_ := mutex_ r; d3d_11_device_ := d;
     d3d_11_device_context_ := d3d_11_device_context_ r;
     shared_texture_ := shared_texture_ r |}.

Definition with_context (c : ptr) (r : D3D11Renderer) : D3D11Renderer :=
  {| width_ := width_ r; height_ := height_ r; handle_ := handle_ r;
     mutex_ := mutex_ r; d3d_11_device_ := d3d_11_device_ r;
     d3d_11_device_context_ := c;
     shared_texture_ := shared_texture_ r |}.

Definition with_texture (t : ptr) (r : D3D11Renderer) : D3D11Renderer :=
  {| width_ := width_ r; height_ := height_ r; handle_ := handle_ r;
     mutex_ := mutex_ r; d3d_11_device_ := d3d_11_device_ r;
     d3d_11_device_context_ := d3d_11_device_context_ r;
     shared_texture_ := t |}.

(** ** Execution state and the monad of member functions

    A member function runs on one object ([this]), the static member
    [instance_count_] and the trace.  [None] is undefined behaviour: a call
    through a null interface pointer, or an overflow of the [int]. *)
Record State := {
  this : D3D11Renderer;
  instance_count_ : Z;
  trace : list Call
}.

Definition M (A : Type) : Type := State -> option (A * State).

Definition ret {A} (a : A) : M A := fun s => Some (a, s).

Definition bind {A B} (m : M A) (k : A -> M B) : M B :=
  fun s => match m s with
           | Some (a, s') => k a s'
           | None => None
           end.

Definition undefined {A} : M A := fun _ => None.

Declare Scope member_scope.
Notation "x ← y ; z" := (bind y (fun x => z))
  (at level 20, y at level 100, z at level 200, only parsing) : member_scope.
Notation "x ;; z" := (bind x (fun _ => z))
  (at level 100, z at level 200, only parsing, right associativity)
  : member_scope.
Local Open Scope member_scope.

Definition self : M D3D11Renderer := fun s => Some (this s, s).

Definition update (f : D3D11Renderer -> D3D11Renderer) : M unit :=
  fun s => Some (tt, {| this := f (this s);
                        instance_count_ := instance_count_ s;
                        trace := trace s |}).

Definition call (c : Call) : M unit :=
  fun s => Some (tt, {| this := this s;
                        instance_count_ := instance_count_ s;
                        trace := trace s ++ [c] |}).

(** [instance_count_++] and [instance_count_--] on the [int]; leaving its
    range is undefined. *)
Definition add_instance_count (d : Z) : M unit :=
  fun s =>
    let n := instance_count_ s + d in
    if (INT_MIN <=? n) && (n <=? INT_MAX) then
      Some (tt, {| this := this s; instance_count_ := n; trace := trace s |})
    else None.

Definition when (b : bool) (m : M unit) : M unit := if b then m else ret tt.

(** A call through interface pointer [p]. *)
Definition deref (p : ptr) : M unit := if is_null p then undefined else ret tt.

(** Destructor of a local [ComPtr] holding [p]. *)
Definition ComPtr_dtor (p : ptr) : M unit := when (negb (is_null p)) (call (Release p)).

(** The macro FAIL: one line on [std::cout], then [return false]. *)
Definition FAIL (message : string) : M bool :=
  call (cout [Str "media_kit: D3D11Renderer: Failure: "; Str message]);;
  ret false.

(** ** Member functions *)

(** [CleanUp] (lines 67-85).  Line 70 releases the texture through the
    interface; line 71 assigns [nullptr] to the [ComPtr], which releases what
    it holds once more. *)
Definition CleanUp (release_device : bool) : M unit :=
  r ← self;
  when (negb (is_null (shared_texture_ r)))
       (call (Release (shared_texture_ r));;
        call (Release (shared_texture_ r));;
        update (with_texture nullptr));;
  when release_device
       (r ← self;
        when (negb (is_null (d3d_11_device_context_ r)))
             (call (Release (d3d_11_device_context_ r));;
              update (with_context nullptr));;
        when (negb (is_null (d3d_11_device_ r)))
             (call (Release (d3d_11_device_ r));;
              update (with_device nullptr))).

(** What the platform answers during [CreateD3D11Device]: the value of
    [Utils::IsWindows10RTMOrGreater()] (declared outside this file), and the
    result codes and out-parameters of the calls in lines 109-130. *)
Record DeviceAnswers := {
  windows10 : bool;
  dxgi : ptr;
  adapter0 : ptr;
  device_hr : HRESULT;
  device_out : ptr;
  context_out : ptr;
  dxgi_device_hr : HRESULT;
  dxgi_device_out : ptr;
  level : Z
}.

Definition feature_levels : list Z :=
  [D3D_FEATURE_LEVEL_11_1; D3D_FEATURE_LEVEL_11_0; D3D_FEATURE_LEVEL_10_1;
   D3D_FEATURE_LEVEL_10_0; D3D_FEATURE_LEVEL_9_3].

(** Lines 100-114: the adapter and the driver type handed to
    [D3D11CreateDevice]. *)
Definition select_adapter (a : DeviceAnswers) : M (ptr * D3D_DRIVER_TYPE) :=
  call (IsWindows10RTMOrGreater (windows10 a));;
  if windows10 a then ret (nullptr, D3D_DRIVER_TYPE_HARDWARE)
  else
    call (CreateDXGIFactory (dxgi a));;
    if negb (is_null (dxgi a)) then
      call (EnumAdapters (dxgi a) 0 (adapter0 a));;
      call (Release (dxgi a));;
      ret (adapter0 a, D3D_DRIVER_TYPE_UNKNOWN)
    else ret (nullptr, D3D_DRIVER_TYPE_UNKNOWN).

(** [CreateD3D11Device] (lines 87-136). *)
Definition CreateD3D11Device (a : DeviceAnswers) : M bool :=
  r ← self;
  if negb (is_null (d3d_11_device_ r)) then ret true
  else
    sel ← select_adapter a;
    call (D3D11CreateDevice (fst sel) (snd sel) feature_levels
            D3D11_SDK_VERSION (device_hr a) (device_out a) (context_out a));;
    update (with_device (device_out a));;
    update (with_context (context_out a));;
    if FAILED (device_hr a) then FAIL "D3D11CreateDevice"
    else
      deref (device_out a);;
      call (QueryInterface (device_out a) IID_IDXGIDevice
              (dxgi_device_hr a) (dxgi_device_out a));;
      when (SUCCEEDED (dxgi_device_hr a) && negb (is_null (dxgi_device_out a)))
           (call (SetGPUThreadPriority (dxgi_device_out a) 5));;
      call (GetFeatureLevel (device_out a) (level a));;
      call (cout [Str "media_kit: D3D11Renderer: Direct3D Feature Level: ";
                  Num (Z.shiftr (to_UINT (level a)) 12); Str "_";
                  Num (Z.land (Z.shiftr (to_UINT (level a)) 8) 0xf)]);;
      ComPtr_dtor (dxgi_device_out a);;
      ret true.

(** What the platform answers during [CreateTexture]. *)
Record TextureAnswers := {
  texture_hr : HRESULT;
  texture_out : ptr;
  resource_hr : HRESULT;
  resource_out : ptr;
  handle_hr : HRESULT;
  handle_out : HANDLE
}.

Definition texture_desc (r : D3D11Renderer) : D3D11_TEXTURE2D_DESC :=
  {| Width := to_UINT (width_ r);
     Height := to_UINT (height_ r);
     MipLevels := 1;
     ArraySize := 1;
     Format := DXGI_FORMAT_B8G8R8A8_UNORM;
     SampleDesc_Count := 1;
     SampleDesc_Quality := 0;
     Usage := D3D11_USAGE_DEFAULT;
     BindFlags := Z.lor D3D11_BIND_RENDER_TARGET D3D11_BIND_SHADER_RESOURCE;
     CPUAccessFlags := 0;
     MiscFlags := D3D11_RESOURCE_MISC_SHARED |}.

(** [CreateTexture] (lines 138-167).  [&shared_texture_] in line 153
    releases and clears the [ComPtr] before the call; the local [resource]
    is destroyed at whichever [return] is taken after line 157. *)
Definition CreateTexture (a : TextureAnswers) : M bool :=
  r ← self;
  ComPtr_dtor (shared_texture_ r);;
  update (with_texture nullptr);;
  deref (d3d_11_device_ r);;
  call (CreateTexture2D (d3d_11_device_ r) (texture_desc r)
          (texture_hr a) (texture_out a));;
  update (with_texture (texture_out a));;
  if FAILED (texture_hr a) then FAIL "ID3D11Device::CreateTexture2D"
  else
    deref (texture_out a);;
    call (QueryInterface (texture_out a) IID_IDXGIResource
            (resource_hr a) (resource_out a));;
    if FAILED (resource_hr a) then
      ok ← FAIL "ID3D11Texture2D::As";
      ComPtr_dtor (resource_out a);;
      ret ok
    else
      deref (resource_out a);;
      call (GetSharedHandle (resource_out a) (handle_hr a) (handle_out a));;
      update (with_handle (handle_out a));;
      if FAILED (handle_hr a) then
        ok ← FAIL "IDXGIResource::GetSharedHandle";
        ComPtr_dtor (resource_out a);;
        ret ok
      else
        call (AddRef (texture_out a));;
        ComPtr_dtor (resource_out a);;
        ret true.

(** [SetSize] (lines 47-55). *)
Definition SetSize (width height : Z) (a : TextureAnswers) : M unit :=
  r ← self;
  if (width =? width_ r) && (height =? height_ r) then ret tt
  else
    update (with_size width height);;
    CleanUp false;;
    _ ← CreateTexture a;
    ret tt.

(** [CopyTexture] (lines 57-65). *)
Definition CopyTexture : M unit :=
  r ← self;
  call (WaitForSingleObject (mutex_ r) INFINITE);;
  when (negb (is_null (d3d_11_device_context_ r)))
       (call (Flush (d3d_11_device_context_ r)));;
  call (ReleaseMutex (mutex_ r)).

(** What a constructor call ends in. *)
Inductive Completion :=
| Constructed
| Thrown (what : string).

(** The constructor (lines 28-38), run on the storage of the new object.
    When it throws, the members already constructed are destroyed: the
    [ComPtr] member releases what it holds.  The destructor of the class
    does not run for an object whose constructor threw. *)
Definition D3D11Renderer_ctor (width height : Z) (mutex : HANDLE)
    (d : DeviceAnswers) (t : TextureAnswers) : M Completion :=
  update (with_size width height);;
  call (CreateMutex mutex);;
  update (with_mutex mutex);;
  device_ok ← CreateD3D11Device d;
  if negb device_ok then
    r ← self;
    ComPtr_dtor (shared_texture_ r);;
    ret (Thrown "Unable to create Direct3D 11 device.")
  else
    texture_ok ← CreateTexture t;
    if negb texture_ok then
      r ← self;
      ComPtr_dtor (shared_texture_ r);;
      ret (Thrown "Unable to create Direct3D 11 texture.")
    else
      add_instance_count 1;;
      ret Constructed.

(** The destructor (lines 40-45), followed by the destruction of the
    [ComPtr] member. *)
Definition D3D11Renderer_dtor : M unit :=
  CleanUp true;;
  r ← self;
  call (ReleaseMutex (mutex_ r));;
  call (CloseHandle (mutex_ r));;
  add_instance_count (-1);;
  ComPtr_dtor (shared_texture_ r).

(** Modelled from the spec: the default member initialisers are part of the
    missing class declaration.  Line 88 compares [d3d_11_device_] with
    [nullptr] before anything was assigned to it, so the pointer members
    start out null; a default-constructed [ComPtr] is null.  [width_] and
    [height_] are overwritten by the constructor's initialiser list. *)
Definition storage : D3D11Renderer :=
  {| width_ := 1; height_ := 1; handle_ := NULL; mutex_ := NULL;
     d3d_11_device_ := nullptr; d3d_11_device_context_ := nullptr;
     shared_texture_ := nullptr |}.

(** The calls [CleanUp] makes on an object. *)
Definition CleanUp_calls (release_device : bool) (r : D3D11Renderer) : list Call :=
  (if is_null (shared_texture_ r) then []
   else [Release (shared_texture_ r); Release (shared_texture_ r)])
  ++ (if release_device then
        (if is_null (d3d_11_device_context_ r) then []
         else [Release (d3d_11_device_context_ r)])
        ++ (if is_null (d3d_11_device_ r) then []
            else [Release (d3d_11_device_ r)])
      else []).

(** The object [CleanUp] leaves behind. *)
Definition cleaned (release_device : bool) (r : D3D11Renderer) : D3D11Renderer :=
  {| width_ := width_ r; height_ := height_ r; handle_ := handle_ r;
     mutex_ := mutex_ r;
     d3d_11_device_ := if release_device then nullptr else d3d_11_device_ r;
     d3d_11_device_context_ :=
       if release_device then nullptr else d3d_11_device_context_ r;
     shared_texture_ := nullptr |}.

(** ** The platform's side of the contract

    What the documentation of the called functions promises about their
    out-parameters: an object on success, and for [CreateTexture2D] no
    object on failure. *)
Record texture_contract (a : TextureAnswers) : Prop := {
  texture_on_success : FAILED (texture_hr a) = false -> texture_out a <> nullptr;
  texture_on_failure : FAILED (texture_hr a) = true -> texture_out a = nullptr;
  resource_on_success : FAILED (resource_hr a) = false -> resource_out a <> nullptr;
  handle_on_success : FAILED (handle_hr a) = false -> handle_out a <> NULL
}.

Definition device_contract (a : DeviceAnswers) : Prop :=
  FAILED (device_hr a) = false -> device_out a <> nullptr.

(** Every step of texture creation succeeded. *)
Definition texture_succeeds (a : TextureAnswers) : bool :=
  negb (FAILED (texture_hr a)) && negb (FAILED (resource_hr a))
  && negb (FAILED (handle_hr a)).


(** ** Reading a trace *)

Definition count (p : Call -> bool) (tr : list Call) : nat :=
  List.length (List.filter p tr).

(** A wait on mutex [m]; a release of mutex [m]. *)
Definition is_wait (m : HANDLE) (c : Call) : bool :=
  match c with
  | WaitForSingleObject h _ => h =? m
  | _ => false
  end.

Definition is_release_mutex (m : HANDLE) (c : Call) : bool :=
  match c with
  | ReleaseMutex h => h =? m
  | _ => false
  end.

Definition is_close (m : HANDLE) (c : Call) : bool :=
  match c with
  | CloseHandle h => h =? m
  | _ => false
  end.

(** COM reference accounting: a call that hands the caller one reference to
    the object at [p], and a call that gives one back. *)
Definition takes_reference (p : ptr) (c : Call) : bool :=
  match c with
  | CreateDXGIFactory f => f =? p
  | EnumAdapters _ _ a => a =? p
  | D3D11CreateDevice _ _ _ _ hr dev ctx =>
      SUCCEEDED hr && ((dev =? p) || (ctx =? p))
  | QueryInterface _ _ hr out => SUCCEEDED hr && (out =? p)
  | CreateTexture2D _ _ hr t => SUCCEEDED hr && (t =? p)
  | AddRef o => o =? p
  | _ => false
  end.

Definition drops_reference (p : ptr) (c : Call) : bool :=
  match c with
  | Release o => o =? p
  | _ => false
  end.

(** [n] calls of [CopyTexture] in a row. *)
Fixpoint CopyTexture_times (n : nat) : M unit :=
  match n with
  | O => ret tt
  | S k => CopyTexture;; CopyTexture_times k
  end.

(** The line that the macro FAIL prints. *)
Definition failure_line (message : string) : Call :=
  cout [Str "media_kit: D3D11Renderer: Failure: "; Str message].

(** The calls [CreateTexture] makes on an object when it returns. *)
Definition CreateTexture_calls (a : TextureAnswers) (r : D3D11Renderer) : list Call :=
  (if is_null (shared_texture_ r) then [] else [Release (shared_texture_ r)])
  ++ CreateTexture2D (d3d_11_device_ r) (texture_desc r)
       (texture_hr a) (texture_out a)
  :: (if FAILED (texture_hr a) then
        [failure_line "ID3D11Device::CreateTexture2D"]
      else
        QueryInterface (texture_out a) IID_IDXGIResource
          (resource_hr a) (resource_out a)
        :: (if FAILED (resource_hr a) then
              failure_line "ID3D11Texture2D::As"
              :: (if is_null (resource_out a) then []
                  else [Release (resource_out a)])
            else
              GetSharedHandle (resource_out a) (handle_hr a) (handle_out a)
              :: (if FAILED (handle_hr a) then
                    failure_line "IDXGIResource::GetSharedHandle"
                  else AddRef (texture_out a))
              :: [Release (resource_out a)])).

(** The calls of lines 104-114 on a host older than Windows 10 RTM. *)
Definition enumeration_calls (a : DeviceAnswers) : list Call :=
  CreateDXGIFactory (dxgi a)
  :: (if is_null (dxgi a) then []
      else [EnumAdapters (dxgi a) 0 (adapter0 a); Release (dxgi a)]).

(** The adapter that enumeration leaves in the local [adapter]. *)
Definition enumerated_adapter (a : DeviceAnswers) : ptr :=
  if is_null (dxgi a) then nullptr else adapter0 a.

(** The state after lines 51-52. *)
Definition resized (width height : Z) (s : State) : State :=
  {| this := with_size width height (this s);
     instance_count_ := instance_count_ s;
     trace := trace s |}.

(** The storage of a new object, before its constructor runs. *)
Definition fresh (n : Z) (tr : list Call) : State :=
  {| this := storage; instance_count_ := n; trace := tr |}.

(** [new D3D11Renderer(width, height)] as its caller sees it: the object, or
    the exception and no object. *)
Definition new_D3D11Renderer (width height : Z) (mutex : HANDLE)
    (d : DeviceAnswers) (t : TextureAnswers) (n : Z) (tr : list Call)
    : option ((D3D11Renderer + string) * Z * list Call) :=
  match D3D11Renderer_ctor width height mutex d t (fresh n tr) with
  | Some (Constructed, s) => Some (inl (this s), instance_count_ s, trace s)
  | Some (Thrown what, s) => Some (inr what, instance_count_ s, trace s)
  | None => None
  end.

(** ** States a renderer can be in

    The states of an object between the calls of its public member
    functions: the one a completed constructor leaves, and those that
    [SetSize] and [CopyTexture] lead to from there, on a platform that keeps
    its contract. *)
Inductive reachable : State -> Prop :=
| reachable_ctor (width height : Z) (mutex : HANDLE) (d : DeviceAnswers)
    (t : TextureAnswers) (n : Z) (tr : list Call) (s : State) :
    device_contract d ->
    texture_contract t ->
    D3D11Renderer_ctor width height mutex d t (fresh n tr)
    = Some (Constructed, s) ->
    reachable s
| reachable_SetSize (width height : Z) (a : TextureAnswers) (s s' : State) :
    reachable s ->
    texture_contract a ->
    SetSize width height a s = Some (tt, s') ->
    reachable s'
| reachable_CopyTexture (s s' : State) :
    reachable s ->
    CopyTexture s = Some (tt, s') ->
    reachable s'.

(** ** A concrete session

    Result codes as the headers give them, and one set of answers for each
    way the platform can react. *)
Module Session.

(** An [HRESULT] written as in the headers, as the signed value it is. *)
Definition to_HRESULT (u : Z) : HRESULT :=
  if u <? 2 ^ 31 then u else u - 2 ^ 32.

Definition S_OK : HRESULT := to_HRESULT 0.
Definition E_OUTOFMEMORY : HRESULT := to_HRESULT 0x8007000E.
Definition DXGI_ERROR_DEVICE_REMOVED : HRESULT := to_HRESULT 0x887A0005.
Definition DXGI_ERROR_UNSUPPORTED : HRESULT := to_HRESULT 0x887A0004.

Definition mutex : HANDLE := 0x4.

Definition device_created : DeviceAnswers :=
  {| windows10 := true; dxgi := nullptr; adapter0 := nullptr;
     device_hr := S_OK; device_out := 0x10; context_out := 0x20;
     dxgi_device_hr := S_OK; dxgi_device_out := 0x18;
     level := D3D_FEATURE_LEVEL_11_1 |}.

(** An older host on which no adapter is enumerated. *)
Definition no_adapter : DeviceAnswers :=
  {| windows10 := false; dxgi := 0x50; adapter0 := nullptr;
     device_hr := S_OK; device_out := 0x10; context_out := 0x20;
     dxgi_device_hr := S_OK; dxgi_device_out := 0x18;
     level := D3D_FEATURE_LEVEL_11_0 |}.

Definition device_refused : DeviceAnswers :=
  {| windows10 := true; dxgi := nullptr; adapter0 := nullptr;
     device_hr := DXGI_ERROR_UNSUPPORTED;
     device_out := nullptr; context_out := nullptr;
     dxgi_device_hr := S_OK; dxgi_device_out := nullptr;
     level := 0 |}.

Definition texture_created : TextureAnswers :=
  {| texture_hr := S_OK; texture_out := 0x30;
     resource_hr := S_OK; resource_out := 0x38;
     handle_hr := S_OK; handle_out := 0x44 |}.

(** [CreateTexture2D] fails; the later calls are not made. *)
Definition out_of_memory : TextureAnswers :=
  {| texture_hr := E_OUTOFMEMORY; texture_out := nullptr;
     resource_hr := E_OUTOFMEMORY; resource_out := nullptr;
     handle_hr := E_OUTOFMEMORY; handle_out := NULL |}.

(** The texture is allocated, but [GetSharedHandle] fails. *)
Definition handle_refused : TextureAnswers :=
  {| texture_hr := S_OK; texture_out := 0x70;
     resource_hr := S_OK; resource_out := 0x78;
     handle_hr := DXGI_ERROR_DEVICE_REMOVED; handle_out := NULL |}.

(** The renderer after [D3D11Renderer(1920, 1080)] went through. *)
Definition renderer : D3D11Renderer :=
  {| width_ := 1920; height_ := 1080; handle_ := 0x44; mutex_ := mutex;
     d3d_11_device_ := 0x10; d3d_11_device_context_ := 0x20;
     shared_texture_ := 0x30 |}.

(** The state a member function ends in, the given one if it has none. *)
Definition after {A} (m : M A) (s : State) : State :=
  match m s with
  | Some (_, s') => s'
  | None => s
  end.

(** The state after that constructor call, in a process that had no
    renderer before. *)
Definition constructed : State :=
  Eval vm_compute in
    after (D3D11Renderer_ctor 1920 1080 mutex device_created texture_created)
          (fresh 0 []).

(** Then [CleanUp(false)] alone. *)
Definition cleaned_up : State :=
  Eval vm_compute in after (CleanUp false) constructed.

(** Or [SetSize(1280, 720)] with the allocation failing. *)
Definition allocation_failed : State :=
  Eval vm_compute in after (SetSize 1280 720 out_of_memory) constructed.

(** Or [SetSize(1280, 720)] with the export of the handle failing, and the
    destructor after it. *)
Definition export_failed : State :=
  Eval vm_compute in after (SetSize 1280 720 handle_refused) constructed.

Definition destroyed : State :=
  Eval vm_compute in after D3D11Renderer_dtor export_failed.

End Session.

(** ** Sequences of public calls

    What a user of a constructed renderer can do with it before destroying
    it: resize it and flush it, in any order. *)
Inductive PublicCall :=
| call_SetSize (width height : Z) (a : TextureAnswers)
| call_CopyTexture.





(** More ways to read a trace. *)
Definition is_create_mutex (c : Call) : bool :=
  match c with
  | CreateMutex _ => true
  | _ => false
  end.

Definition is_close_any (c : Call) : bool :=
  match c with
  | CloseHandle _ => true
  | _ => false
  end.


Definition is_enumeration (c : Call) : bool :=
  match c with
  | CreateDXGIFactory _ | EnumAdapters _ _ _ => true
  | _ => false
  end.

Definition is_texture_creation (c : Call) : bool :=
  match c with
  | CreateTexture2D _ _ _ _ => true
  | _ => false
  end.

Definition is_add_ref (c : Call) : bool :=
  match c with
  | AddRef _ => true
  | _ => false
  end.

(** The calls a device creation makes once [D3D11CreateDevice] succeeded
    (lines 123-133), up to the destruction of the local [dxgi_device]. *)
Definition priority_calls (a : DeviceAnswers) : list Call :=
  QueryInterface (device_out a) IID_IDXGIDevice
    (dxgi_device_hr a) (dxgi_device_out a)
  :: (if SUCCEEDED (dxgi_device_hr a) && negb (is_null (dxgi_device_out a))
      then [SetGPUThreadPriority (dxgi_device_out a) 5] else [])
  ++ [GetFeatureLevel (device_out a) (level a);
      cout [Str "media_kit: D3D11Renderer: Direct3D Feature Level: ";
            Num (Z.shiftr (to_UINT (level a)) 12); Str "_";
            Num (Z.land (Z.shiftr (to_UINT (level a)) 8) 0xf)]]
  ++ (if is_null (dxgi_device_out a) then []
      else [Release (dxgi_device_out a)]).

(** The calls [CreateD3D11Device] makes on an object without a device. *)
Definition CreateD3D11Device_calls (a : DeviceAnswers) : list Call :=
  IsWindows10RTMOrGreater (windows10 a)
  :: (if windows10 a then [] else enumeration_calls a)
  ++ D3D11CreateDevice
       (if windows10 a then nullptr else enumerated_adapter a)
       (if windows10 a then D3D_DRIVER_TYPE_HARDWARE
        else D3D_DRIVER_TYPE_UNKNOWN)
       feature_levels D3D11_SDK_VERSION
       (device_hr a) (device_out a) (context_out a)
  :: (if FAILED (device_hr a) then [failure_line "D3D11CreateDevice"]
      else priority_calls a).

Definition is_device_creation (c : Call) : bool :=
  match c with
  | D3D11CreateDevice _ _ _ _ _ _ _ => true
  | _ => false
  end.

Definition is_set_priority (c : Call) : bool :=
  match c with
  | SetGPUThreadPriority _ _ => true
  | _ => false
  end.

(** The object between the two creation steps of the constructor. *)
Definition under_construction (width height : Z) (mutex : HANDLE)
    (d : DeviceAnswers) : D3D11Renderer :=
  {| width_ := width; height_ := height; handle_ := NULL; mutex_ := mutex;
     d3d_11_device_ := device_out d;
     d3d_11_device_context_ := context_out d;
     shared_texture_ := nullptr |}.

(** The calls of a constructor, the release by the [ComPtr] member of an
    object whose constructor throws included. *)
Definition D3D11Renderer_ctor_calls (width height : Z) (mutex : HANDLE)
    (d : DeviceAnswers) (t : TextureAnswers) : list Call :=
  CreateMutex mutex
  :: CreateD3D11Device_calls d
  ++ (if FAILED (device_hr d) then []
      else CreateTexture_calls t (under_construction width height mutex d)
           ++ (if texture_succeeds t then []
               else if is_null (texture_out t) then []
                    else [Release (texture_out t)])).

(** How a constructor ends, by what the platform answered. *)
Definition D3D11Renderer_ctor_completion (d : DeviceAnswers)
    (t : TextureAnswers) : Completion :=
  if FAILED (device_hr d) then Thrown "Unable to create Direct3D 11 device."
  else if texture_succeeds t then Constructed
       else Thrown "Unable to create Direct3D 11 texture.".

(** Counting in one of the call lists above, by cases on the answers. *)
Ltac count_calls :=
  unfold D3D11Renderer_ctor_calls, CleanUp_calls, CreateTexture_calls,
    CreateD3D11Device_calls, enumeration_calls, priority_calls, failure_line,
    count;
  repeat (simpl;
          match goal with
          | |- context [if ?b then _ else _] =>
              lazymatch b with
              | context [if _ then _ else _] => fail
              | _ => destruct b
              end
          end);
  simpl; try reflexivity.


(** ** More of the concrete session *)
Module Usage.

(** A second texture, created by a later resize. *)
Definition texture_recreated : TextureAnswers :=
  {| texture_hr := Session.S_OK; texture_out := 0x90;
     resource_hr := Session.S_OK; resource_out := 0x98;
     handle_hr := Session.S_OK; handle_out := 0xa4 |}.

(** The texture is allocated but does not give an [IDXGIResource]. *)
Definition E_NOINTERFACE : HRESULT := Session.to_HRESULT 0x80004002.

Definition no_resource : TextureAnswers :=
  {| texture_hr := Session.S_OK; texture_out := 0x70;
     resource_hr := E_NOINTERFACE; resource_out := nullptr;
     handle_hr := E_NOINTERFACE; handle_out := NULL |}.

(** The device is created, but gives no [IDXGIDevice]. *)
Definition no_dxgi_device : DeviceAnswers :=
  {| windows10 := true; dxgi := nullptr; adapter0 := nullptr;
     device_hr := Session.S_OK; device_out := 0x10; context_out := 0x20;
     dxgi_device_hr := E_NOINTERFACE; dxgi_device_out := nullptr;
     level := D3D_FEATURE_LEVEL_10_1 |}.

(** An older host with one adapter. *)
Definition old_host : DeviceAnswers :=
  {| windows10 := false; dxgi := 0x50; adapter0 := 0x58;
     device_hr := Session.S_OK; device_out := 0x10; context_out := 0x20;
     dxgi_device_hr := Session.S_OK; dxgi_device_out := 0x18;
     level := D3D_FEATURE_LEVEL_11_0 |}.

(** A flush, a resize whose export fails, a flush, a resize that works, a
    resize to the same size, a flush. *)
Definition calls : list PublicCall :=
  [call_CopyTexture;
   call_SetSize 1280 720 Session.handle_refused;
   call_CopyTexture;
   call_SetSize 640 480 texture_recreated;
   call_SetSize 640 480 Session.out_of_memory;
   call_CopyTexture].

End Usage.

(** ** Proof automation *)

Create HintDb member.
#[local] Hint Unfold bind ret self update call when deref ComPtr_dtor FAIL
  undefined : member.

(** Unfold the monad and compute. *)
Ltac run := autounfold with member; simpl.

(** A contract at concrete answers, by evaluation. *)
Ltac contract_holds :=
  lazymatch goal with
  | |- device_contract _ => unfold device_contract
  | |- texture_contract _ => constructor
  end;
  vm_compute; intros; first [ reflexivity | congruence ].


(** ** Running member functions *)


Lemma is_null_false (p : ptr) : p <> nullptr -> is_null p = false.
Proof. intros Hp. unfold is_null. apply Z.eqb_neq, Hp. Qed.

Lemma is_null_true (p : ptr) : is_null p = true -> p = nullptr.
Proof. unfold is_null. apply Z.eqb_eq. Qed.

Lemma is_null_not (p : ptr) : is_null p = false -> p <> nullptr.
Proof. unfold is_null. apply Z.eqb_neq. Qed.

Lemma FAILED_SUCCEEDED (hr : HRESULT) : SUCCEEDED hr = negb (FAILED hr).
Proof. unfold SUCCEEDED, FAILED. destruct (Z.ltb_spec hr 0); lia. Qed.

(** [CleanUp] always returns; it clears the texture, clears the device and
    the context when asked to, and writes no other member: not the exported
    handle either. *)
Lemma CleanUp_runs (release_device : bool) (s : State) :
  CleanUp release_device s =
    Some (tt, {| this := cleaned release_device (this s);
                 instance_count_ := instance_count_ s;
                 trace := trace s ++ CleanUp_calls release_device (this s) |}).
Proof.
  destruct s as [[w h hd m dev ctx tex] n tr].
  unfold CleanUp, CleanUp_calls, cleaned. run.
  destruct (is_null tex) eqn:Htex, release_device; simpl;
    try destruct (is_null ctx) eqn:Hctx; simpl;
    try destruct (is_null dev) eqn:Hdev; simpl;
    rewrite <- ?app_assoc, ?app_nil_r; simpl;
    repeat match goal with
           | H : is_null _ = true |- _ => apply is_null_true in H; subst
           end;
    reflexivity.
Qed.

(** [CopyTexture] always returns and writes no member. *)
Lemma CopyTexture_runs (s : State) :
  CopyTexture s =
    Some (tt, {| this := this s;
                 instance_count_ := instance_count_ s;
                 trace := trace s
                   ++ [WaitForSingleObject (mutex_ (this s)) INFINITE]
                   ++ (if is_null (d3d_11_device_context_ (this s)) then []
                       else [Flush (d3d_11_device_context_ (this s))])
                   ++ [ReleaseMutex (mutex_ (this s))] |}).
Proof.
  unfold CopyTexture. run.
  destruct (is_null (d3d_11_device_context_ (this s))); simpl;
    rewrite <- ?app_assoc; reflexivity.
Qed.

(** What a returning [CreateTexture] has done to the object. *)
Lemma CreateTexture_returns (a : TextureAnswers) (s s' : State) (ok : bool) :
  CreateTexture a s = Some (ok, s') ->
  ok = texture_succeeds a
  /\ shared_texture_ (this s') = texture_out a
  /\ handle_ (this s') =
       (if FAILED (texture_hr a) || FAILED (resource_hr a)
        then handle_ (this s) else handle_out a)
  /\ mutex_ (this s') = mutex_ (this s)
  /\ width_ (this s') = width_ (this s)
  /\ height_ (this s') = height_ (this s)
  /\ d3d_11_device_ (this s') = d3d_11_device_ (this s)
  /\ d3d_11_device_context_ (this s') = d3d_11_device_context_ (this s)
  /\ instance_count_ s' = instance_count_ s
  /\ trace s' = trace s ++ CreateTexture_calls a (this s).
Proof.
  destruct s as [[w h hd m dev ctx tex] n tr].
  unfold CreateTexture, CreateTexture_calls, texture_succeeds, failure_line.
  run.
  destruct (is_null tex), (is_null dev); simpl; try discriminate;
    (destruct (FAILED (texture_hr a)); simpl;
     [| destruct (is_null (texture_out a)); simpl; try discriminate;
        destruct (FAILED (resource_hr a)); simpl;
        [ destruct (is_null (resource_out a)); simpl
        | destruct (is_null (resource_out a)); simpl; try discriminate;
          destruct (FAILED (handle_hr a)); simpl ] ]);
    intros [= <- <-]; simpl;
    rewrite <- ?app_assoc; simpl; tauto.
Qed.

(** With a device and a platform that keeps its contract, [CreateTexture]
    returns. *)
Lemma CreateTexture_defined (a : TextureAnswers) (s : State) :
  d3d_11_device_ (this s) <> nullptr ->
  texture_contract a ->
  exists ok s', CreateTexture a s = Some (ok, s').
Proof.
  intros Hdev [Htex _ Hres _].
  destruct s as [[w h hd m dev ctx tex] n tr]. simpl in Hdev.
  unfold CreateTexture. run.
  rewrite (is_null_false dev Hdev).
  destruct (is_null tex); simpl;
    (destruct (FAILED (texture_hr a)); simpl; [eauto|];
     rewrite (is_null_false _ (Htex eq_refl)); simpl;
     destruct (FAILED (resource_hr a)); simpl;
     [ destruct (is_null (resource_out a)); simpl; eauto |];
     rewrite (is_null_false _ (Hres eq_refl)); simpl;
     destruct (FAILED (handle_hr a)); simpl; eauto).
Qed.

Lemma count_app (p : Call -> bool) (l1 l2 : list Call) :
  count p (l1 ++ l2) = (count p l1 + count p l2)%nat.
Proof. unfold count. rewrite List.filter_app. apply length_app. Qed.

(** The calls of one [CopyTexture] contain one wait on the object's mutex
    and one release of it. *)
Lemma CopyTexture_calls_balanced (m : HANDLE) (ctx : ptr) :
  let calls := [WaitForSingleObject m INFINITE]
               ++ (if is_null ctx then [] else [Flush ctx])
               ++ [ReleaseMutex m] in
  count (is_wait m) calls = 1%nat /\ count (is_release_mutex m) calls = 1%nat.
Proof.
  unfold count. simpl. rewrite Z.eqb_refl.
  destruct (is_null ctx); simpl; rewrite Z.eqb_refl; auto.
Qed.

(** ** Resize with the current dimensions *)

(** C5: [SetSize] called with the dimensions the renderer already has
    returns at once: the whole state, the exported handle included, is what
    it was, and the trace shows that nothing was released or created. *)
Theorem SetSize_same_size_noop (a : TextureAnswers) (s : State) :
  SetSize (width_ (this s)) (height_ (this s)) a s = Some (tt, s).
Proof.
  unfold SetSize. run. rewrite !Z.eqb_refl. reflexivity.
Qed.

(** ** Flush *)

(** C6: [CopyTexture] waits on the mutex with timeout [INFINITE], then
    flushes the device context exactly when there is one, then releases the
    mutex; these are all its calls, and no member and not the instance count
    is written, so with no context it only takes and releases the lock. *)
Theorem CopyTexture_wait_flush_release (s : State) :
  exists s',
    CopyTexture s = Some (tt, s')
    /\ this s' = this s
    /\ instance_count_ s' = instance_count_ s
    /\ trace s' = trace s
         ++ WaitForSingleObject (mutex_ (this s)) INFINITE
         :: (if d3d_11_device_context_ (this s) =? nullptr then []
             else [Flush (d3d_11_device_context_ (this s))])
         ++ [ReleaseMutex (mutex_ (this s))].
Proof.
  rewrite CopyTexture_runs. eexists. split; [reflexivity|]. simpl. auto.
Qed.

(** Flush calls in a row all return, write no member, and add as many
    waits on the mutex as releases of it. *)
Lemma CopyTexture_times_runs (n : nat) (s : State) :
  exists s',
    CopyTexture_times n s = Some (tt, s')
    /\ this s' = this s
    /\ instance_count_ s' = instance_count_ s
    /\ count (is_wait (mutex_ (this s))) (trace s')
       = (count (is_wait (mutex_ (this s))) (trace s) + n)%nat
    /\ count (is_release_mutex (mutex_ (this s))) (trace s')
       = (count (is_release_mutex (mutex_ (this s))) (trace s) + n)%nat.
Proof.
  revert s. induction n as [|k IH]; intros s.
  - exists s. simpl. unfold ret. rewrite !Nat.add_0_r. auto.
  - simpl. unfold bind at 1. rewrite CopyTexture_runs.
    match goal with |- context [CopyTexture_times k ?t] => set (s1 := t) end.
    destruct (IH s1) as (s' & Hrun & Hthis & Hn & Hw & Hr).
    exists s'. split; [exact Hrun|]. subst s1.
    cbn [this trace instance_count_] in Hthis, Hn, Hw, Hr.
    split; [exact Hthis|]. split; [exact Hn|].
    rewrite Hw, Hr, !(count_app _ (trace s)).
    destruct (CopyTexture_calls_balanced (mutex_ (this s))
                (d3d_11_device_context_ (this s))) as [-> ->].
    lia.
Qed.

(** C10: a [CopyTexture] call adds to the trace exactly one wait on the
    object's mutex and exactly one release of it, the release being its last
    call, whether or not there is a device context; so over any number of
    flush calls in a row the waits and the releases grow by the same
    number. *)
Theorem CopyTexture_lock_balanced (n : nat) (s : State) :
  let m := mutex_ (this s) in
  (exists s1 calls,
     CopyTexture s = Some (tt, s1)
     /\ trace s1 = trace s ++ calls ++ [ReleaseMutex m]
     /\ count (is_wait m) (calls ++ [ReleaseMutex m]) = 1%nat
     /\ count (is_release_mutex m) (calls ++ [ReleaseMutex m]) = 1%nat)
  /\ exists s',
       CopyTexture_times n s = Some (tt, s')
       /\ count (is_wait m) (trace s') = (count (is_wait m) (trace s) + n)%nat
       /\ count (is_release_mutex m) (trace s')
          = (count (is_release_mutex m) (trace s) + n)%nat.
Proof.
  cbv zeta. split.
  - rewrite CopyTexture_runs.
    exists {| this := this s; instance_count_ := instance_count_ s;
              trace := trace s
                ++ [WaitForSingleObject (mutex_ (this s)) INFINITE]
                ++ (if is_null (d3d_11_device_context_ (this s)) then []
                    else [Flush (d3d_11_device_context_ (this s))])
                ++ [ReleaseMutex (mutex_ (this s))] |},
           ([WaitForSingleObject (mutex_ (this s)) INFINITE]
            ++ (if is_null (d3d_11_device_context_ (this s)) then []
                else [Flush (d3d_11_device_context_ (this s))])).
    split; [reflexivity|]. split; [reflexivity|].
    apply (CopyTexture_calls_balanced (mutex_ (this s))
             (d3d_11_device_context_ (this s))).
  - destruct (CopyTexture_times_runs n s) as (s' & Hrun & _ & _ & Hw & Hr).
    eauto.
Qed.

(** ** Device creation *)

Lemma bind_run {A B} (m : M A) (k : A -> M B) (s s1 : State) (a : A) :
  m s = Some (a, s1) -> bind m k s = k a s1.
Proof. intros H. unfold bind. rewrite H. reflexivity. Qed.

Lemma bind_returns {A B} (m : M A) (k : A -> M B) (s s' : State) (b : B) :
  bind m k s = Some (b, s') ->
  exists a s1, m s = Some (a, s1) /\ k a s1 = Some (b, s').
Proof.
  unfold bind. destruct (m s) as [[a s1]|]; [eauto | discriminate].
Qed.

(** C8: when the renderer already has a device, [CreateD3D11Device] returns
    [true] at once: no call is made and the device, the context and every
    other part of the state are what they were. *)
Theorem CreateD3D11Device_idempotent (a : DeviceAnswers) (s : State) :
  d3d_11_device_ (this s) <> nullptr ->
  CreateD3D11Device a s = Some (true, s).
Proof.
  intros Hdev. unfold CreateD3D11Device. run.
  rewrite (is_null_false _ Hdev). reflexivity.
Qed.

(** What a returning [CreateD3D11Device] has done to an object that had no
    device. *)
Lemma CreateD3D11Device_returns (a : DeviceAnswers) (s s' : State) (ok : bool) :
  d3d_11_device_ (this s) = nullptr ->
  CreateD3D11Device a s = Some (ok, s') ->
  ok = negb (FAILED (device_hr a))
  /\ d3d_11_device_ (this s') = device_out a
  /\ d3d_11_device_context_ (this s') = context_out a
  /\ shared_texture_ (this s') = shared_texture_ (this s)
  /\ handle_ (this s') = handle_ (this s)
  /\ mutex_ (this s') = mutex_ (this s)
  /\ width_ (this s') = width_ (this s)
  /\ height_ (this s') = height_ (this s)
  /\ instance_count_ s' = instance_count_ s.
Proof.
  destruct s as [[w h hd m dev ctx tex] n tr]. simpl. intros ->.
  unfold CreateD3D11Device, select_adapter. run.
  destruct (windows10 a); simpl;
    try destruct (is_null (dxgi a)); simpl;
    (destruct (FAILED (device_hr a)); simpl;
     [ intros [= <- <-]; simpl; tauto |];
     destruct (is_null (device_out a)); simpl; try discriminate;
     destruct (SUCCEEDED (dxgi_device_hr a)); simpl;
     destruct (is_null (dxgi_device_out a)); simpl;
     intros [= <- <-]; simpl; tauto).
Qed.

(** On a platform that keeps its contract, [CreateD3D11Device] returns. *)
Lemma CreateD3D11Device_defined (a : DeviceAnswers) (s : State) :
  device_contract a ->
  exists ok s', CreateD3D11Device a s = Some (ok, s').
Proof.
  intros Hdev. unfold device_contract in Hdev.
  unfold CreateD3D11Device, select_adapter. run.
  destruct (is_null (d3d_11_device_ (this s))); simpl; [|eauto].
  destruct (windows10 a); simpl;
    try destruct (is_null (dxgi a)); simpl;
    (destruct (FAILED (device_hr a)); simpl; [eauto|];
     rewrite (is_null_false _ (Hdev eq_refl)); simpl;
     destruct (SUCCEEDED (dxgi_device_hr a)); simpl;
     destruct (is_null (dxgi_device_out a)); simpl; eauto).
Qed.

(** C7: on a host older than Windows 10 RTM, creating the device goes
    through the DXGI enumeration interface: a factory is created and
    [EnumAdapters] is called on it with index 0, the first adapter.  The
    adapter obtained is the one passed to [D3D11CreateDevice], with driver
    type [D3D_DRIVER_TYPE_UNKNOWN]; when enumeration yields none, the call
    is made all the same with a null adapter, which asks for the default
    one. *)
Theorem CreateD3D11Device_enumerates_adapter (a : DeviceAnswers) (s : State) :
  windows10 a = false ->
  d3d_11_device_ (this s) = nullptr ->
  device_contract a ->
  exists ok s' rest,
    CreateD3D11Device a s = Some (ok, s')
    /\ trace s' = trace s
         ++ IsWindows10RTMOrGreater false
         :: enumeration_calls a
         ++ D3D11CreateDevice (enumerated_adapter a) D3D_DRIVER_TYPE_UNKNOWN
              feature_levels D3D11_SDK_VERSION
              (device_hr a) (device_out a) (context_out a)
         :: rest
    /\ (dxgi a <> nullptr ->
        In (EnumAdapters (dxgi a) 0 (adapter0 a)) (enumeration_calls a)
        /\ enumerated_adapter a = adapter0 a)
    /\ (dxgi a = nullptr \/ adapter0 a = nullptr ->
        enumerated_adapter a = nullptr).
Proof.
  intros Hold Hnull Hdev. unfold device_contract in Hdev.
  destruct s as [[w h hd m dev ctx tex] n tr]. simpl in Hnull. subst dev.
  unfold CreateD3D11Device, select_adapter, enumeration_calls,
    enumerated_adapter. run. rewrite Hold. simpl.
  assert (Hfacts :
    (dxgi a <> nullptr ->
     In (EnumAdapters (dxgi a) 0 (adapter0 a))
        (CreateDXGIFactory (dxgi a)
         :: (if is_null (dxgi a) then []
             else [EnumAdapters (dxgi a) 0 (adapter0 a); Release (dxgi a)]))
     /\ (if is_null (dxgi a) then nullptr else adapter0 a) = adapter0 a)
    /\ (dxgi a = nullptr \/ adapter0 a = nullptr ->
        (if is_null (dxgi a) then nullptr else adapter0 a) = nullptr)).
  { split.
    - intros Hd. rewrite (is_null_false _ Hd). simpl. auto.
    - intros [Hd | Ha].
      + rewrite Hd. reflexivity.
      + destruct (is_null (dxgi a)); auto. }
  destruct (is_null (dxgi a)); simpl;
    (destruct (FAILED (device_hr a)); simpl;
     [| rewrite (is_null_false _ (Hdev eq_refl)); simpl;
        destruct (SUCCEEDED (dxgi_device_hr a)); simpl;
        destruct (is_null (dxgi_device_out a)); simpl ]);
    do 3 eexists;
    (split; [reflexivity|]);
    (split; [|exact Hfacts]);
    simpl; rewrite <- ?app_assoc; simpl; reflexivity.
Qed.

(** ** Resize *)

(** A resize to other dimensions stores them first and then runs the
    release and the creation of the texture. *)
Lemma SetSize_resizes (width height : Z) (a : TextureAnswers) (s : State) :
  width <> width_ (this s) \/ height <> height_ (this s) ->
  SetSize width height a s
  = (CleanUp false;; _ ← CreateTexture a; ret tt) (resized width height s).
Proof.
  intros Hne. unfold SetSize.
  unfold bind at 1, self at 1.
  replace ((width =? width_ (this s)) && (height =? height_ (this s)))
    with false; [reflexivity|].
  symmetry. apply andb_false_iff.
  destruct Hne as [H | H]; [left | right]; apply Z.eqb_neq, H.
Qed.

(** What a returning resize to other dimensions has done. *)
Lemma SetSize_returns (width height : Z) (a : TextureAnswers) (s s' : State) :
  width <> width_ (this s) \/ height <> height_ (this s) ->
  SetSize width height a s = Some (tt, s') ->
  width_ (this s') = width
  /\ height_ (this s') = height
  /\ shared_texture_ (this s') = texture_out a
  /\ handle_ (this s') =
       (if FAILED (texture_hr a) || FAILED (resource_hr a)
        then handle_ (this s) else handle_out a)
  /\ mutex_ (this s') = mutex_ (this s)
  /\ d3d_11_device_ (this s') = d3d_11_device_ (this s)
  /\ d3d_11_device_context_ (this s') = d3d_11_device_context_ (this s)
  /\ instance_count_ s' = instance_count_ s
  /\ trace s' = trace s
       ++ CleanUp_calls false (this s)
       ++ CreateTexture_calls a (cleaned false (with_size width height (this s))).
Proof.
  intros Hne. rewrite (SetSize_resizes _ _ _ _ Hne).
  rewrite (bind_run _ _ _ _ _ (CleanUp_runs false _)).
  intros Hrun. apply bind_returns in Hrun as (ok & s1 & Hcreate & Hret).
  unfold ret in Hret. injection Hret as <-.
  apply CreateTexture_returns in Hcreate. simpl in Hcreate.
  destruct Hcreate as (_ & Htex & Hh & Hm & Hw & Hht & Hd & Hc & Hn & Htr).
  rewrite Htr, <- app_assoc. tauto.
Qed.

(** With a device and a platform that keeps its contract, a resize
    returns. *)
Lemma SetSize_defined (width height : Z) (a : TextureAnswers) (s : State) :
  d3d_11_device_ (this s) <> nullptr ->
  texture_contract a ->
  exists s', SetSize width height a s = Some (tt, s').
Proof.
  intros Hdev Ha.
  destruct (Z.eq_dec width (width_ (this s))) as [-> | Hw];
    [destruct (Z.eq_dec height (height_ (this s))) as [-> | Hh] |].
  - exists s. unfold SetSize. run. rewrite !Z.eqb_refl. reflexivity.
  - rewrite SetSize_resizes by auto.
    rewrite (bind_run _ _ _ _ _ (CleanUp_runs false _)).
    edestruct (CreateTexture_defined a) as (ok & s' & Hrun);
      [| exact Ha | rewrite (bind_run _ _ _ _ _ Hrun); unfold ret; eauto].
    exact Hdev.
  - rewrite SetSize_resizes by auto.
    rewrite (bind_run _ _ _ _ _ (CleanUp_runs false _)).
    edestruct (CreateTexture_defined a) as (ok & s' & Hrun);
      [| exact Ha | rewrite (bind_run _ _ _ _ _ Hrun); unfold ret; eauto].
    exact Hdev.
Qed.

(** C9: a resize to other dimensions stores the requested width and height
    before it releases and recreates the texture; the descriptor of the
    [CreateTexture2D] call already carries them, and whenever the call
    returns, also when the creation failed, the stored dimensions are the
    requested ones.  With a device and a platform that keeps its contract
    the call does return. *)
Theorem SetSize_stores_size_first (width height : Z) (a : TextureAnswers)
    (s : State) :
  width <> width_ (this s) \/ height <> height_ (this s) ->
  d3d_11_device_ (this s) <> nullptr ->
  texture_contract a ->
  SetSize width height a s
  = (CleanUp false;; _ ← CreateTexture a; ret tt) (resized width height s)
  /\ exists s',
       SetSize width height a s = Some (tt, s')
       /\ width_ (this s') = width
       /\ height_ (this s') = height
       /\ In (CreateTexture2D (d3d_11_device_ (this s))
                {| Width := to_UINT width;
                   Height := to_UINT height;
                   MipLevels := 1;
                   ArraySize := 1;
                   Format := DXGI_FORMAT_B8G8R8A8_UNORM;
                   SampleDesc_Count := 1;
                   SampleDesc_Quality := 0;
                   Usage := D3D11_USAGE_DEFAULT;
                   BindFlags := Z.lor D3D11_BIND_RENDER_TARGET
                                      D3D11_BIND_SHADER_RESOURCE;
                   CPUAccessFlags := 0;
                   MiscFlags := D3D11_RESOURCE_MISC_SHARED |}
                (texture_hr a) (texture_out a))
             (trace s').
Proof.
  intros Hne Hdev Ha. split; [apply SetSize_resizes, Hne|].
  destruct (SetSize_defined width height a s Hdev Ha) as (s' & Hrun).
  exists s'. split; [exact Hrun|].
  apply SetSize_returns in Hrun; [|exact Hne].
  destruct Hrun as (Hw & Hh & _ & _ & _ & _ & _ & _ & Htr).
  split; [exact Hw|]. split; [exact Hh|].
  rewrite Htr. apply in_or_app. right. apply in_or_app. right.
  unfold CreateTexture_calls. simpl. left. reflexivity.
Qed.

(** C2, as the code has it: when a resize to other dimensions fails to
    allocate the new texture, the renderer is left without a texture and
    the exported handle field keeps the value it had before the call; one
    [CreateTexture2D] call was made and one failure line printed, nothing
    is tried again, and flush calls leave the object as it is. *)
Theorem SetSize_allocation_failure (width height : Z) (a : TextureAnswers)
    (s : State) :
  width <> width_ (this s) \/ height <> height_ (this s) ->
  d3d_11_device_ (this s) <> nullptr ->
  FAILED (texture_hr a) = true ->
  texture_out a = nullptr ->
  exists s',
    SetSize width height a s = Some (tt, s')
    /\ shared_texture_ (this s') = nullptr
    /\ handle_ (this s') = handle_ (this s)
    /\ trace s' = trace s
         ++ CleanUp_calls false (this s)
         ++ [CreateTexture2D (d3d_11_device_ (this s))
               (texture_desc (with_size width height (this s)))
               (texture_hr a) nullptr;
             failure_line "ID3D11Device::CreateTexture2D"]
    /\ forall n, exists s'',
         CopyTexture_times n s' = Some (tt, s'') /\ this s'' = this s'.
Proof.
  intros Hne Hdev Hfail Hout.
  rewrite SetSize_resizes by exact Hne.
  rewrite (bind_run _ _ _ _ _ (CleanUp_runs false _)).
  unfold CreateTexture. run. rewrite (is_null_false _ Hdev), Hfail, Hout.
  simpl. eexists. split; [reflexivity|]. simpl.
  repeat split.
  - rewrite <- !app_assoc. reflexivity.
  - intros n.
    match goal with |- context [CopyTexture_times n ?t] =>
      destruct (CopyTexture_times_runs n t) as (s'' & Hrun & Hthis & _)
    end.
    exists s''. split; [exact Hrun | exact Hthis].
Qed.

(** ** Construction and destruction *)

Lemma add_instance_count_runs (d : Z) (s : State) :
  INT_MIN <= instance_count_ s + d <= INT_MAX ->
  add_instance_count d s
  = Some (tt, {| this := this s;
                 instance_count_ := instance_count_ s + d;
                 trace := trace s |}).
Proof.
  intros [Hlo Hhi]. unfold add_instance_count. cbv zeta.
  apply Z.leb_le in Hlo, Hhi. rewrite Hlo, Hhi. reflexivity.
Qed.

Lemma texture_succeeds_true (a : TextureAnswers) :
  texture_succeeds a = true ->
  FAILED (texture_hr a) = false /\ FAILED (resource_hr a) = false
  /\ FAILED (handle_hr a) = false.
Proof.
  unfold texture_succeeds.
  destruct (FAILED (texture_hr a)), (FAILED (resource_hr a)),
    (FAILED (handle_hr a)); simpl; intros; try discriminate; auto.
Qed.

(** On a platform that keeps its contract the constructor completes: with
    an object holding what the platform returned when every step went
    through, and with an exception otherwise.  The instance count moves in
    the first case only. *)
Lemma D3D11Renderer_ctor_runs (width height : Z) (mutex : HANDLE)
    (d : DeviceAnswers) (t : TextureAnswers) (n : Z) (tr : list Call) :
  device_contract d ->
  texture_contract t ->
  INT_MIN <= n < INT_MAX ->
  exists c s',
    D3D11Renderer_ctor width height mutex d t (fresh n tr) = Some (c, s')
    /\ match c with
       | Constructed =>
           FAILED (device_hr d) = false
           /\ texture_succeeds t = true
           /\ this s' = {| width_ := width; height_ := height;
                           handle_ := handle_out t; mutex_ := mutex;
                           d3d_11_device_ := device_out d;
                           d3d_11_device_context_ := context_out d;
                           shared_texture_ := texture_out t |}
           /\ instance_count_ s' = n + 1
       | Thrown _ =>
           (FAILED (device_hr d) = true \/ texture_succeeds t = false)
           /\ instance_count_ s' = n
       end.
Proof.
  intros Hd Ht Hrange. unfold D3D11Renderer_ctor.
  set (s1 := {| this := with_mutex mutex (with_size width height storage);
                instance_count_ := n;
                trace := tr ++ [CreateMutex mutex] |}).
  change (exists c s',
    (device_ok ← CreateD3D11Device d;
     if negb device_ok then
       r ← self; ComPtr_dtor (shared_texture_ r);;
       ret (Thrown "Unable to create Direct3D 11 device.")
     else
       texture_ok ← CreateTexture t;
       if negb texture_ok then
         r ← self; ComPtr_dtor (shared_texture_ r);;
         ret (Thrown "Unable to create Direct3D 11 texture.")
       else add_instance_count 1;; ret Constructed) s1 = Some (c, s')
    /\ match c with
       | Constructed =>
           FAILED (device_hr d) = false
           /\ texture_succeeds t = true
           /\ this s' = {| width_ := width; height_ := height;
                           handle_ := handle_out t; mutex_ := mutex;
                           d3d_11_device_ := device_out d;
                           d3d_11_device_context_ := context_out d;
                           shared_texture_ := texture_out t |}
           /\ instance_count_ s' = n + 1
       | Thrown _ =>
           (FAILED (device_hr d) = true \/ texture_succeeds t = false)
           /\ instance_count_ s' = n
       end).
  destruct (CreateD3D11Device_defined d s1 Hd) as (ok & s2 & Hrun).
  rewrite (bind_run _ _ _ _ _ Hrun).
  apply CreateD3D11Device_returns in Hrun; [|reflexivity].
  destruct Hrun as (Hok & Hdev & Hctx & Htex & Hh & Hm & Hw & Hht & Hn).
  simpl in Htex, Hh, Hm, Hw, Hht, Hn.
  destruct (FAILED (device_hr d)) eqn:Hfail; simpl in Hok; subst ok; simpl.
  - run. rewrite Htex. simpl. eexists _, _. split; [reflexivity|].
    simpl. auto.
  - assert (Hnn : d3d_11_device_ (this s2) <> nullptr).
    { rewrite Hdev. apply Hd. exact Hfail. }
    destruct (CreateTexture_defined t s2 Hnn Ht) as (ok & s3 & Hrun).
    rewrite (bind_run _ _ _ _ _ Hrun).
    apply CreateTexture_returns in Hrun.
    destruct Hrun as (Hok & Htex3 & Hh3 & Hm3 & Hw3 & Hht3 & Hd3 & Hc3 & Hn3 & _).
    destruct (texture_succeeds t) eqn:Hsucc; subst ok; simpl.
    + rewrite (bind_run _ _ _ _ _ (add_instance_count_runs 1 s3 ltac:(lia))).
      run. eexists _, _. split; [reflexivity|]. simpl.
      destruct (texture_succeeds_true t Hsucc) as (Ht1 & Ht2 & _).
      rewrite Ht1, Ht2 in Hh3. simpl in Hh3.
      repeat split; [| lia].
      destruct (this s3) as [w3 h3 hd3 m3 dev3 ctx3 tex3]. simpl in *.
      congruence.
    + run. destruct (is_null (shared_texture_ (this s3))); simpl;
        eexists _, _; (split; [reflexivity|]); simpl; split; auto; lia.
Qed.

(** What a completed constructor has built. *)
Lemma D3D11Renderer_ctor_returns (width height : Z) (mutex : HANDLE)
    (d : DeviceAnswers) (t : TextureAnswers) (n : Z) (tr : list Call)
    (s : State) :
  D3D11Renderer_ctor width height mutex d t (fresh n tr)
  = Some (Constructed, s) ->
  FAILED (device_hr d) = false
  /\ texture_succeeds t = true
  /\ d3d_11_device_ (this s) = device_out d
  /\ shared_texture_ (this s) = texture_out t
  /\ handle_ (this s) = handle_out t
  /\ mutex_ (this s) = mutex
  /\ instance_count_ s = n + 1.
Proof.
  unfold D3D11Renderer_ctor. intros Hrun.
  apply bind_returns in Hrun as (? & s0 & [= <- <-] & Hrun).
  apply bind_returns in Hrun as (? & s0' & [= <- <-] & Hrun).
  apply bind_returns in Hrun as (? & s1 & [= <- <-] & Hrun).
  apply bind_returns in Hrun as (ok & s2 & Hdev & Hrun).
  apply CreateD3D11Device_returns in Hdev; [|reflexivity].
  destruct Hdev as (Hok & Hdev & _ & Htex & _ & Hm & _ & _ & Hn).
  simpl in Htex, Hm, Hn.
  destruct (FAILED (device_hr d)); simpl in Hok; subst ok; simpl in Hrun.
  - revert Hrun. run. rewrite Htex. simpl. discriminate.
  - apply bind_returns in Hrun as (ok & s3 & Hcreate & Hrun).
    apply CreateTexture_returns in Hcreate.
    destruct Hcreate as (Hok & Htex3 & Hh3 & Hm3 & _ & _ & Hd3 & _ & Hn3 & _).
    destruct (texture_succeeds t) eqn:Hsucc; subst ok; simpl in Hrun.
    + apply bind_returns in Hrun as (? & s4 & Hadd & [= <-]).
      unfold add_instance_count in Hadd. cbv zeta in Hadd.
      destruct ((INT_MIN <=? instance_count_ s3 + 1)
                && (instance_count_ s3 + 1 <=? INT_MAX)); [|discriminate].
      injection Hadd as Hs4. subst s4. simpl.
      destruct (texture_succeeds_true t Hsucc) as (Ht1 & Ht2 & _).
      rewrite Ht1, Ht2 in Hh3. simpl in Hh3.
      repeat split; first [congruence | lia].
    + revert Hrun. run.
      destruct (is_null (shared_texture_ (this s3))); discriminate.
Qed.

(** A returning resize leaves the device, the context and the mutex handle
    alone. *)
Lemma SetSize_keeps_device (width height : Z) (a : TextureAnswers)
    (s s' : State) :
  SetSize width height a s = Some (tt, s') ->
  d3d_11_device_ (this s') = d3d_11_device_ (this s)
  /\ d3d_11_device_context_ (this s') = d3d_11_device_context_ (this s)
  /\ mutex_ (this s') = mutex_ (this s)
  /\ instance_count_ s' = instance_count_ s.
Proof.
  intros Hrun.
  destruct (Z.eq_dec width (width_ (this s))) as [Hw | Hw];
    [destruct (Z.eq_dec height (height_ (this s))) as [Hh | Hh] |].
  - subst. unfold SetSize in Hrun. revert Hrun. run.
    rewrite !Z.eqb_refl. simpl. intros [= <-]. auto.
  - apply SetSize_returns in Hrun; [tauto | auto].
  - apply SetSize_returns in Hrun; [tauto | auto].
Qed.

(** Every state a renderer can be in has a device. *)
Lemma reachable_has_device (s : State) :
  reachable s -> d3d_11_device_ (this s) <> nullptr.
Proof.
  induction 1 as [w h m d t n tr s Hd Ht Hrun
                 | w h a s s' _ IH Ha Hrun
                 | s s' _ IH Hrun].
  - apply D3D11Renderer_ctor_returns in Hrun.
    destruct Hrun as (Hok & _ & Hdev & _). rewrite Hdev. apply Hd, Hok.
  - apply SetSize_keeps_device in Hrun. destruct Hrun as (-> & _). exact IH.
  - rewrite CopyTexture_runs in Hrun. injection Hrun as <-. exact IH.
Qed.

(** So on every such state the public member functions are defined: a
    resize, whatever the platform answers within its contract, and a
    flush. *)
Lemma reachable_defined (width height : Z) (a : TextureAnswers) (s : State) :
  reachable s ->
  texture_contract a ->
  (exists s', SetSize width height a s = Some (tt, s') /\ reachable s')
  /\ (exists s', CopyTexture s = Some (tt, s') /\ reachable s').
Proof.
  intros Hs Ha. split.
  - destruct (SetSize_defined width height a s (reachable_has_device s Hs) Ha)
      as (s' & Hrun).
    exists s'. split; [exact Hrun|].
    exact (reachable_SetSize width height a s s' Hs Ha Hrun).
  - rewrite CopyTexture_runs. eexists. split; [reflexivity|].
    eapply reachable_CopyTexture; [exact Hs | apply CopyTexture_runs].
Qed.

(** The destructor always returns: after [CleanUp(true)] it releases the
    mutex, closes its handle once and takes one off the instance count. *)
Lemma D3D11Renderer_dtor_runs (s : State) :
  INT_MIN < instance_count_ s <= INT_MAX ->
  D3D11Renderer_dtor s =
    Some (tt, {| this := cleaned true (this s);
                 instance_count_ := instance_count_ s + -1;
                 trace := trace s ++ CleanUp_calls true (this s)
                            ++ [ReleaseMutex (mutex_ (this s));
                                CloseHandle (mutex_ (this s))] |}).
Proof.
  intros Hrange. unfold D3D11Renderer_dtor.
  rewrite (bind_run _ _ _ _ _ (CleanUp_runs true _)).
  run. rewrite add_instance_count_runs by (simpl; lia).
  simpl. rewrite <- !app_assoc. reflexivity.
Qed.

(** C3: for positive dimensions, on a platform that keeps its contract,
    [new D3D11Renderer(width, height)] either gives the caller an object
    whose exported handle is not null, or throws and gives no object at
    all; the instance count is one higher in the first case and unchanged
    in the second.  The object is given exactly when every creation step
    succeeded. *)
Theorem new_D3D11Renderer_handle_or_exception (width height : Z)
    (mutex : HANDLE) (d : DeviceAnswers) (t : TextureAnswers)
    (n : Z) (tr : list Call) :
  0 < width ->
  0 < height ->
  device_contract d ->
  texture_contract t ->
  INT_MIN <= n < INT_MAX ->
  exists result n' tr',
    new_D3D11Renderer width height mutex d t n tr = Some (result, n', tr')
    /\ match result with
       | inl r =>
           handle_ r <> NULL /\ n' = n + 1
           /\ FAILED (device_hr d) = false /\ texture_succeeds t = true
       | inr _ =>
           n' = n
           /\ (FAILED (device_hr d) = true \/ texture_succeeds t = false)
       end.
Proof.
  intros _ _ Hd Ht Hrange. unfold new_D3D11Renderer.
  destruct (D3D11Renderer_ctor_runs width height mutex d t n tr Hd Ht Hrange)
    as ([|what] & s' & -> & Hc).
  - destruct Hc as (Hdev & Hsucc & Hthis & Hn).
    eexists _, _, _. split; [reflexivity|]. simpl.
    rewrite Hthis. simpl.
    destruct (texture_succeeds_true t Hsucc) as (_ & _ & Hh).
    repeat split; auto. apply (handle_on_success t Ht Hh).
  - destruct Hc as (Hwhy & Hn).
    eexists _, _, _. split; [reflexivity|]. simpl. auto.
Qed.

(** C1, as the code has it: after a construction that gives an object, and
    after a resize to other dimensions whose texture creation succeeds, the
    texture and the exported handle are both non-null; a flush writes
    neither; [CleanUp], and a resize whose allocation fails, clear the
    texture and leave the exported handle field as it was, so a handle can
    be present without a texture. *)
Theorem texture_and_handle_after_operations (width height : Z)
    (mutex : HANDLE) (d : DeviceAnswers) (t a : TextureAnswers)
    (n : Z) (tr : list Call)
    (width' height' : Z) (release_device : bool) (s : State) :
  device_contract d ->
  texture_contract t ->
  INT_MIN <= n < INT_MAX ->
  texture_contract a ->
  d3d_11_device_ (this s) <> nullptr ->
  width' <> width_ (this s) \/ height' <> height_ (this s) ->
  (exists result n' tr',
     new_D3D11Renderer width height mutex d t n tr = Some (result, n', tr')
     /\ match result with
        | inl r => shared_texture_ r <> nullptr /\ handle_ r <> NULL
        | inr _ => True
        end)
  /\ (exists s',
        SetSize width' height' a s = Some (tt, s')
        /\ (texture_succeeds a = true ->
            shared_texture_ (this s') <> nullptr /\ handle_ (this s') <> NULL)
        /\ (FAILED (texture_hr a) = true ->
            shared_texture_ (this s') = nullptr
            /\ handle_ (this s') = handle_ (this s)))
  /\ (exists s', CopyTexture s = Some (tt, s') /\ this s' = this s)
  /\ (exists s',
        CleanUp release_device s = Some (tt, s')
        /\ shared_texture_ (this s') = nullptr
        /\ handle_ (this s') = handle_ (this s)).
Proof.
  intros Hd Ht Hrange Ha Hdev Hne. repeat split.
  - unfold new_D3D11Renderer.
    destruct (D3D11Renderer_ctor_runs width height mutex d t n tr Hd Ht Hrange)
      as ([|what] & s' & -> & Hc).
    + destruct Hc as (_ & Hsucc & Hthis & _).
      eexists _, _, _. split; [reflexivity|]. simpl. rewrite Hthis. simpl.
      destruct (texture_succeeds_true t Hsucc) as (Ht1 & _ & Ht3).
      split; [apply (texture_on_success t Ht Ht1)
             | apply (handle_on_success t Ht Ht3)].
    + eexists _, _, _. split; [reflexivity | exact I].
  - destruct (SetSize_defined width' height' a s Hdev Ha) as (s' & Hrun).
    exists s'. split; [exact Hrun|].
    apply SetSize_returns in Hrun; [|exact Hne].
    destruct Hrun as (_ & _ & Htex & Hh & _). split.
    + intros Hsucc.
      destruct (texture_succeeds_true a Hsucc) as (Ha1 & Ha2 & Ha3).
      rewrite Htex, Hh, Ha1, Ha2. simpl.
      split; [apply (texture_on_success a Ha Ha1)
             | apply (handle_on_success a Ha Ha3)].
    + intros Hfail. rewrite Htex, Hh, Hfail. simpl.
      split; [apply (texture_on_failure a Ha Hfail) | reflexivity].
  - rewrite CopyTexture_runs. eexists. split; reflexivity.
  - rewrite CleanUp_runs. eexists. split; [reflexivity|]. simpl. auto.
Qed.

(** ** The concrete session *)

(** [D3D11Renderer(1920, 1080)] on a platform where every step succeeds
    gives [Session.renderer]. *)
Lemma session_constructed :
  D3D11Renderer_ctor 1920 1080 Session.mutex Session.device_created
    Session.texture_created (fresh 0 []) = Some (Constructed, Session.constructed)
  /\ this Session.constructed = Session.renderer
  /\ instance_count_ Session.constructed = 1.
Proof. repeat split. Qed.

(** On the platform of the session every contract holds. *)
Lemma session_contracts :
  device_contract Session.device_created
  /\ texture_contract Session.texture_created
  /\ texture_contract Session.out_of_memory
  /\ texture_contract Session.handle_refused.
Proof.
  split; [contract_holds|]. split; [contract_holds|].
  split; contract_holds.
Qed.

Lemma session_reachable :
  reachable Session.constructed
  /\ reachable Session.allocation_failed
  /\ reachable Session.export_failed.
Proof.
  destruct session_contracts as (Hd & Ht & Hoom & Hexp).
  assert (H0 : reachable Session.constructed).
  { apply (reachable_ctor 1920 1080 Session.mutex Session.device_created
             Session.texture_created 0 [] Session.constructed Hd Ht).
    reflexivity. }
  split; [exact H0|]. split.
  - apply (reachable_SetSize 1280 720 Session.out_of_memory
             Session.constructed Session.allocation_failed H0 Hoom).
    reflexivity.
  - apply (reachable_SetSize 1280 720 Session.handle_refused
             Session.constructed Session.export_failed H0 Hexp).
    reflexivity.
Qed.

(** Counterexample to C1 as stated: on the constructed renderer,
    [CleanUp] leaves the exported handle 0x44 in place while the texture is
    gone; and so does a whole resize to 1280x720 whose allocation fails,
    which ends in a state the renderer can be in. *)
Lemma handle_without_texture :
  D3D11Renderer_ctor 1920 1080 Session.mutex Session.device_created
    Session.texture_created (fresh 0 []) = Some (Constructed, Session.constructed)
  /\ CleanUp false Session.constructed = Some (tt, Session.cleaned_up)
  /\ ~ (handle_ (this Session.cleaned_up) <> NULL
        <-> shared_texture_ (this Session.cleaned_up) <> nullptr)
  /\ SetSize 1280 720 Session.out_of_memory Session.constructed
     = Some (tt, Session.allocation_failed)
  /\ ~ (handle_ (this Session.allocation_failed) <> NULL
        <-> shared_texture_ (this Session.allocation_failed) <> nullptr).
Proof.
  split; [reflexivity|]. split; [reflexivity|].
  split; [intros [Hto _]; apply Hto; [discriminate | reflexivity]|].
  split; [reflexivity|].
  intros [Hto _]. apply Hto; [discriminate | reflexivity].
Qed.

(** Counterexample to C2 as stated: a resize of the constructed renderer
    to 1280x720 whose allocation fails leaves no texture, but the exported
    handle is still 0x44, not null. *)
Lemma failed_resize_keeps_handle :
  D3D11Renderer_ctor 1920 1080 Session.mutex Session.device_created
    Session.texture_created (fresh 0 []) = Some (Constructed, Session.constructed)
  /\ (1280 <> width_ (this Session.constructed)
      \/ 720 <> height_ (this Session.constructed))
  /\ FAILED (texture_hr Session.out_of_memory) = true
  /\ SetSize 1280 720 Session.out_of_memory Session.constructed
     = Some (tt, Session.allocation_failed)
  /\ shared_texture_ (this Session.allocation_failed) = nullptr
  /\ handle_ (this Session.allocation_failed) = 0x44
  /\ handle_ (this Session.allocation_failed) <> NULL.
Proof.
  split; [reflexivity|]. split; [left; discriminate|].
  repeat split. discriminate.
Qed.

(** C4 at the failing input: the renderer is constructed, resized to
    1280x720 with [GetSharedHandle] failing after the texture 0x70 was
    allocated, and destroyed.  The destructor closes the mutex handle once
    and takes one off the instance count, but the one reference the
    renderer holds to the texture 0x70 is released twice: line 164, which
    takes the second reference, was skipped by the early return of line
    162, while lines 70 and 71 release two. *)
Lemma texture_released_twice :
  D3D11Renderer_ctor 1920 1080 Session.mutex Session.device_created
    Session.texture_created (fresh 0 []) = Some (Constructed, Session.constructed)
  /\ SetSize 1280 720 Session.handle_refused Session.constructed
     = Some (tt, Session.export_failed)
  /\ shared_texture_ (this Session.export_failed) = 0x70
  /\ D3D11Renderer_dtor Session.export_failed = Some (tt, Session.destroyed)
  /\ count (takes_reference 0x70) (trace Session.destroyed) = 1%nat
  /\ count (drops_reference 0x70) (trace Session.destroyed) = 2%nat
  /\ count (is_close Session.mutex) (trace Session.destroyed) = 1%nat
  /\ instance_count_ Session.destroyed = 0.
Proof. repeat split. Qed.

(** The texture of a creation that went through is held twice and released
    twice: the references to 0x30 balance over construction and
    destruction. *)
Lemma texture_references_balance :
  exists s,
    D3D11Renderer_dtor Session.constructed = Some (tt, s)
    /\ count (takes_reference 0x30) (trace s) = 2%nat
    /\ count (drops_reference 0x30) (trace s) = 2%nat.
Proof. eexists. split; [vm_compute; reflexivity|]. split; reflexivity. Qed.

(** A constructor that throws leaves the mutex handle open and the device
    and the context unreleased: no destructor runs for it. *)
Lemma throwing_constructor_leaks :
  exists tr,
    new_D3D11Renderer 1920 1080 Session.mutex Session.device_created
      Session.out_of_memory 0 []
    = Some (inr "Unable to create Direct3D 11 texture.", 0, tr)
    /\ count (is_close Session.mutex) tr = 0%nat
    /\ count (takes_reference 0x10) tr = 1%nat
    /\ count (drops_reference 0x10) tr = 0%nat.
Proof. eexists. split; [vm_compute; reflexivity|]. repeat split. Qed.
(** *** The theorems at the session's inputs *)

Example resize_to_current_size :
  SetSize 1920 1080 Session.out_of_memory Session.constructed
  = Some (tt, Session.constructed).
Proof. vm_compute. reflexivity. Qed.

Example flush_of_session :
  option_map (fun r => trace (snd r)) (CopyTexture Session.constructed)
  = Some (trace Session.constructed
          ++ [WaitForSingleObject 0x4 INFINITE; Flush 0x20; ReleaseMutex 0x4]).
Proof. vm_compute. reflexivity. Qed.

Lemma CreateD3D11Device_idempotent_witness :
  d3d_11_device_ (this Session.constructed) <> nullptr
  /\ CreateD3D11Device Session.device_refused Session.constructed
     = Some (true, Session.constructed).
Proof.
  split; [vm_compute; discriminate|].
  apply (CreateD3D11Device_idempotent Session.device_refused Session.constructed).
  vm_compute; discriminate.
Defined.

Lemma CreateD3D11Device_enumerates_adapter_witness :
  windows10 Session.no_adapter = false
  /\ exists ok s' rest,
       CreateD3D11Device Session.no_adapter (fresh 0 []) = Some (ok, s')
       /\ trace s' = []
            ++ IsWindows10RTMOrGreater false
            :: enumeration_calls Session.no_adapter
            ++ D3D11CreateDevice (enumerated_adapter Session.no_adapter)
                 D3D_DRIVER_TYPE_UNKNOWN feature_levels D3D11_SDK_VERSION
                 (device_hr Session.no_adapter) (device_out Session.no_adapter)
                 (context_out Session.no_adapter)
            :: rest
       /\ (dxgi Session.no_adapter <> nullptr ->
           In (EnumAdapters (dxgi Session.no_adapter) 0
                 (adapter0 Session.no_adapter))
              (enumeration_calls Session.no_adapter)
           /\ enumerated_adapter Session.no_adapter
              = adapter0 Session.no_adapter)
       /\ (dxgi Session.no_adapter = nullptr
           \/ adapter0 Session.no_adapter = nullptr ->
           enumerated_adapter Session.no_adapter = nullptr).
Proof.
  split; [reflexivity|].
  apply (CreateD3D11Device_enumerates_adapter Session.no_adapter (fresh 0 []));
    [reflexivity | reflexivity | contract_holds].
Defined.

Lemma SetSize_stores_size_first_witness :
  (1280 <> width_ (this Session.constructed)
   \/ 720 <> height_ (this Session.constructed))
  /\ exists s',
       SetSize 1280 720 Session.handle_refused Session.constructed = Some (tt, s')
       /\ width_ (this s') = 1280
       /\ height_ (this s') = 720.
Proof.
  split; [left; vm_compute; discriminate|].
  destruct (SetSize_stores_size_first 1280 720 Session.handle_refused
              Session.constructed)
    as (_ & s' & Hrun & Hw & Hh & _);
    [left; vm_compute; discriminate | vm_compute; discriminate
    | contract_holds |].
  exists s'. auto.
Defined.

Lemma SetSize_allocation_failure_witness :
  FAILED (texture_hr Session.out_of_memory) = true
  /\ exists s',
       SetSize 1280 720 Session.out_of_memory Session.constructed = Some (tt, s')
       /\ shared_texture_ (this s') = nullptr
       /\ handle_ (this s') = 0x44.
Proof.
  split; [reflexivity|].
  destruct (SetSize_allocation_failure 1280 720 Session.out_of_memory
              Session.constructed)
    as (s' & Hrun & Htex & Hh & _);
    [left; vm_compute; discriminate | vm_compute; discriminate
    | reflexivity | reflexivity |].
  exists s'. auto.
Defined.

Lemma new_D3D11Renderer_handle_or_exception_witness :
  0 < 1920 /\ 0 < 1080 /\ INT_MIN <= 0 < INT_MAX
  /\ exists result n' tr',
       new_D3D11Renderer 1920 1080 Session.mutex Session.device_created
         Session.texture_created 0 [] = Some (result, n', tr')
       /\ match result with
          | inl r =>
              handle_ r <> NULL /\ n' = 0 + 1
              /\ FAILED (device_hr Session.device_created) = false
              /\ texture_succeeds Session.texture_created = true
          | inr _ =>
              n' = 0
              /\ (FAILED (device_hr Session.device_created) = true
                  \/ texture_succeeds Session.texture_created = false)
          end.
Proof.
  split; [lia|]. split; [lia|]. split; [vm_compute; split; congruence|].
  apply (new_D3D11Renderer_handle_or_exception 1920 1080 Session.mutex
           Session.device_created Session.texture_created 0 []);
    [lia | lia | contract_holds | contract_holds | vm_compute; split; congruence].
Defined.

Lemma texture_and_handle_after_operations_witness :
  exists s',
    SetSize 1280 720 Session.texture_created Session.constructed = Some (tt, s')
    /\ (texture_succeeds Session.texture_created = true ->
        shared_texture_ (this s') <> nullptr /\ handle_ (this s') <> NULL)
    /\ (FAILED (texture_hr Session.texture_created) = true ->
        shared_texture_ (this s') = nullptr
        /\ handle_ (this s') = handle_ (this Session.constructed)).
Proof.
  destruct (texture_and_handle_after_operations 1920 1080 Session.mutex
              Session.device_created Session.texture_created
              Session.texture_created 0 [] 1280 720 false Session.constructed)
    as (_ & Hresize & _);
    [contract_holds | contract_holds | vm_compute; split; congruence
    | contract_holds
    | vm_compute; discriminate | left; vm_compute; discriminate |].
  exact Hresize.
Defined.

(** * Further properties of the renderer *)

(** ** More on device creation *)

(** The calls of a returning [CreateD3D11Device] on an object without a
    device. *)
Lemma CreateD3D11Device_trace (a : DeviceAnswers) (s s' : State) (ok : bool) :
  d3d_11_device_ (this s) = nullptr ->
  CreateD3D11Device a s = Some (ok, s') ->
  trace s' = trace s ++ CreateD3D11Device_calls a.
Proof.
  destruct s as [[w h hd m dev ctx tex] n tr]. simpl. intros ->.
  unfold CreateD3D11Device, select_adapter, CreateD3D11Device_calls,
    enumeration_calls, enumerated_adapter, priority_calls, failure_line.
  run.
  destruct (windows10 a); simpl;
    try destruct (is_null (dxgi a)); simpl;
    (destruct (FAILED (device_hr a)); simpl;
     [| destruct (is_null (device_out a)); simpl; try discriminate;
        destruct (SUCCEEDED (dxgi_device_hr a)); simpl;
        destruct (is_null (dxgi_device_out a)); simpl ]);
    intros [= <- <-]; simpl; rewrite <- ?app_assoc; reflexivity.
Qed.

(** When [D3D11CreateDevice] fails, device creation needs no contract to
    return. *)
Lemma CreateD3D11Device_fails (a : DeviceAnswers) (s : State) :
  d3d_11_device_ (this s) = nullptr ->
  FAILED (device_hr a) = true ->
  exists s', CreateD3D11Device a s = Some (false, s').
Proof.
  destruct s as [[w h hd m dev ctx tex] n tr]. simpl. intros -> Hfail.
  unfold CreateD3D11Device, select_adapter. run. rewrite Hfail.
  destruct (windows10 a); simpl;
    try destruct (is_null (dxgi a)); simpl; eauto.
Qed.

Lemma count_nil (p : Call -> bool) : count p [] = 0%nat.
Proof. reflexivity. Qed.

Lemma count_cons (p : Call -> bool) (c : Call) (l : list Call) :
  count p (c :: l) = ((if p c then 1 else 0) + count p l)%nat.
Proof. unfold count. simpl. destruct (p c); reflexivity. Qed.

(** X1.  On Windows 10 RTM or later the device is created on the default
    hardware adapter: [D3D11CreateDevice] is the first platform call after
    the version test and gets a null adapter with
    [D3D_DRIVER_TYPE_HARDWARE]; no DXGI factory is created and no adapter
    enumerated. *)
Theorem CreateD3D11Device_recent_windows (a : DeviceAnswers) (s : State) :
  windows10 a = true ->
  d3d_11_device_ (this s) = nullptr ->
  device_contract a ->
  exists ok s' rest,
    CreateD3D11Device a s = Some (ok, s')
    /\ trace s' = trace s
         ++ IsWindows10RTMOrGreater true
         :: D3D11CreateDevice nullptr D3D_DRIVER_TYPE_HARDWARE
              feature_levels D3D11_SDK_VERSION
              (device_hr a) (device_out a) (context_out a)
         :: rest
    /\ count is_enumeration (trace s') = count is_enumeration (trace s).
Proof.
  intros Hnew Hnull Hd.
  destruct (CreateD3D11Device_defined a s Hd) as (ok & s' & Hrun).
  pose proof (CreateD3D11Device_trace a s s' ok Hnull Hrun) as Htr.
  unfold CreateD3D11Device_calls in Htr. rewrite Hnew in Htr. simpl in Htr.
  exists ok, s'. eexists. split; [exact Hrun|]. split; [exact Htr|].
  rewrite Htr, count_app, !count_cons. simpl.
  unfold priority_calls, failure_line.
  destruct (FAILED (device_hr a)); simpl.
  - rewrite count_cons. simpl. rewrite count_nil. lia.
  - rewrite count_cons, !count_app. simpl.
    destruct (SUCCEEDED (dxgi_device_hr a)
              && negb (is_null (dxgi_device_out a)));
      destruct (is_null (dxgi_device_out a));
      rewrite ?count_cons, ?count_nil; simpl; lia.
Qed.

(** X2.  When [D3D11CreateDevice] fails, [CreateD3D11Device] returns [false]
    after printing one failure line: that line is its last call, nothing
    is asked of the device (no interface query, no priority, no feature
    level), and the members hold what the failed call left in them. *)
Theorem CreateD3D11Device_failure (a : DeviceAnswers) (s : State) :
  d3d_11_device_ (this s) = nullptr ->
  FAILED (device_hr a) = true ->
  exists s' calls,
    CreateD3D11Device a s = Some (false, s')
    /\ trace s' = trace s ++ calls
         ++ [D3D11CreateDevice
               (if windows10 a then nullptr else enumerated_adapter a)
               (if windows10 a then D3D_DRIVER_TYPE_HARDWARE
                else D3D_DRIVER_TYPE_UNKNOWN)
               feature_levels D3D11_SDK_VERSION
               (device_hr a) (device_out a) (context_out a);
             failure_line "D3D11CreateDevice"]
    /\ count is_device_creation calls = 0%nat
    /\ d3d_11_device_ (this s') = device_out a
    /\ d3d_11_device_context_ (this s') = context_out a
    /\ handle_ (this s') = handle_ (this s)
    /\ shared_texture_ (this s') = shared_texture_ (this s)
    /\ instance_count_ s' = instance_count_ s.
Proof.
  intros Hnull Hfail.
  destruct (CreateD3D11Device_fails a s Hnull Hfail) as (s' & Hrun).
  pose proof (CreateD3D11Device_trace a s s' false Hnull Hrun) as Htr.
  apply CreateD3D11Device_returns in Hrun as Hret; [|exact Hnull].
  destruct Hret as (_ & Hdev & Hctx & Htex & Hh & _ & _ & _ & Hn).
  unfold CreateD3D11Device_calls in Htr. rewrite Hfail in Htr.
  exists s',
    (IsWindows10RTMOrGreater (windows10 a)
     :: (if windows10 a then [] else enumeration_calls a)).
  split; [exact Hrun|]. split.
  - rewrite Htr. reflexivity.
  - split; [|tauto].
    rewrite count_cons. simpl. unfold enumeration_calls.
    destruct (windows10 a); [reflexivity|].
    rewrite count_cons. simpl.
    destruct (is_null (dxgi a)); rewrite ?count_cons, ?count_nil;
      reflexivity.
Qed.

(** With a device obtained, [CreateD3D11Device] returns, whatever the
    query for [IDXGIDevice] gives. *)
Lemma CreateD3D11Device_succeeds (a : DeviceAnswers) (s : State) :
  d3d_11_device_ (this s) = nullptr ->
  FAILED (device_hr a) = false ->
  device_out a <> nullptr ->
  exists s',
    CreateD3D11Device a s = Some (true, s')
    /\ trace s' = trace s ++ CreateD3D11Device_calls a
    /\ d3d_11_device_ (this s') = device_out a
    /\ d3d_11_device_context_ (this s') = context_out a.
Proof.
  intros Hnull Hok Hdev.
  destruct (CreateD3D11Device_defined a s) as (ok & s' & Hrun).
  { intros _. exact Hdev. }
  pose proof (CreateD3D11Device_trace a s s' ok Hnull Hrun) as Htr.
  apply CreateD3D11Device_returns in Hrun as Hret; [|exact Hnull].
  destruct Hret as (Hb & Hd & Hc & _).
  rewrite Hok in Hb. simpl in Hb. subst ok. eauto.
Qed.

(** X3.  Raising the GPU thread priority is best effort: once the device
    exists, [CreateD3D11Device] returns [true] whether or not the device
    gives an [IDXGIDevice]; [SetGPUThreadPriority] is called exactly when
    the query succeeded with an interface, once, on that interface, with
    priority 5, which lies in the interval [-7, 7] the comment of line 127
    quotes. *)
Theorem CreateD3D11Device_priority_best_effort (a : DeviceAnswers) (s : State) :
  d3d_11_device_ (this s) = nullptr ->
  FAILED (device_hr a) = false ->
  device_out a <> nullptr ->
  exists s' calls,
    CreateD3D11Device a s = Some (true, s')
    /\ trace s' = trace s ++ calls
    /\ count is_set_priority calls
       = (if SUCCEEDED (dxgi_device_hr a) && negb (is_null (dxgi_device_out a))
          then 1 else 0)%nat
    /\ forall d p, In (SetGPUThreadPriority d p) calls ->
         d = dxgi_device_out a /\ p = 5 /\ -7 <= p <= 7.
Proof.
  intros Hnull Hok Hdev.
  destruct (CreateD3D11Device_succeeds a s Hnull Hok Hdev)
    as (s' & Hrun & Htr & _).
  exists s', (CreateD3D11Device_calls a).
  split; [exact Hrun|]. split; [exact Htr|].
  unfold CreateD3D11Device_calls, enumeration_calls, priority_calls,
    failure_line.
  rewrite Hok.
  destruct (windows10 a), (is_null (dxgi a)),
    (SUCCEEDED (dxgi_device_hr a)), (is_null (dxgi_device_out a));
    simpl; (split; [reflexivity|]);
    intros d p Hin;
    repeat match goal with
           | H : _ \/ _ |- _ => destruct H
           | H : False |- _ => destruct H
           | H : _ = SetGPUThreadPriority _ _ |- _ =>
               first [discriminate H | injection H as <- <-]
           end;
    repeat split; lia.
Qed.

Lemma feature_level_digits (u : Z) :
  0 <= u < 2 ^ 32 ->
  0 <= Z.land (Z.shiftr u 8) 0xf < 16
  /\ 0 <= Z.shiftr u 12 < 2 ^ 20
  /\ u = Z.shiftr u 12 * 4096 + Z.land (Z.shiftr u 8) 0xf * 256 + u mod 256.
Proof.
  intros Hu.
  rewrite !Z.shiftr_div_pow2 by lia.
  change 0xf with (Z.ones 4). rewrite Z.land_ones by lia.
  change (2 ^ 12) with (256 * 16). change (2 ^ 8) with 256.
  change (2 ^ 4) with 16.
  rewrite <- Z.div_div by lia.
  pose proof (Z.div_mod u 256 ltac:(lia)) as H1.
  pose proof (Z.div_mod (u / 256) 16 ltac:(lia)) as H2.
  pose proof (Z.mod_pos_bound u 256 ltac:(lia)) as H3.
  pose proof (Z.mod_pos_bound (u / 256) 16 ltac:(lia)) as H4.
  assert (0 <= u / 256 < 2 ^ 24).
  { split; [apply Z.div_pos; lia | apply Z.div_lt_upper_bound; lia]. }
  assert (0 <= u / 256 / 16 < 2 ^ 20).
  { split; [apply Z.div_pos; lia | apply Z.div_lt_upper_bound; lia]. }
  lia.
Qed.

(** X4.  The line logged after device creation gives the feature level back:
    it prints bits 12 and up of the level as the major number and bits 8
    to 11 as the minor one, so for a level whose low byte is zero, as for
    each of the five requested ones, the level is major * 0x1000 + minor *
    0x100; the requested levels are logged as 11_1, 11_0, 10_1, 10_0 and
    9_3. *)
Theorem CreateD3D11Device_logs_feature_level (a : DeviceAnswers) (s : State) :
  d3d_11_device_ (this s) = nullptr ->
  FAILED (device_hr a) = false ->
  device_out a <> nullptr ->
  exists s' major minor,
    CreateD3D11Device a s = Some (true, s')
    /\ In (cout [Str "media_kit: D3D11Renderer: Direct3D Feature Level: ";
                 Num major; Str "_"; Num minor])
          (trace s')
    /\ 0 <= minor < 16
    /\ 0 <= major < 2 ^ 20
    /\ to_UINT (level a)
       = major * 0x1000 + minor * 0x100 + to_UINT (level a) mod 0x100
    /\ (In (level a) feature_levels ->
        level a = major * 0x1000 + minor * 0x100
        /\ In (major, minor) [(11, 1); (11, 0); (10, 1); (10, 0); (9, 3)]).
Proof.
  intros Hnull Hok Hdev.
  destruct (CreateD3D11Device_succeeds a s Hnull Hok Hdev)
    as (s' & Hrun & Htr & _).
  exists s', (Z.shiftr (to_UINT (level a)) 12),
    (Z.land (Z.shiftr (to_UINT (level a)) 8) 0xf).
  split; [exact Hrun|]. split.
  - rewrite Htr. apply in_or_app. right.
    unfold CreateD3D11Device_calls. rewrite Hok.
    right. apply in_or_app. right. right.
    unfold priority_calls. right. apply in_or_app. right.
    apply in_or_app. left. right. left. reflexivity.
  - assert (Hu : 0 <= to_UINT (level a) < 2 ^ 32).
    { unfold to_UINT. apply Z.mod_pos_bound. lia. }
    destruct (feature_level_digits _ Hu) as (Hmin & Hmaj & Heq).
    split; [exact Hmin|]. split; [exact Hmaj|]. split; [exact Heq|].
    intros Hin. unfold feature_levels in Hin. simpl in Hin.
    destruct Hin as [H | [H | [H | [H | [H | []]]]]]; rewrite <- H;
      vm_compute; intuition congruence.
Qed.

(** ** More on construction *)

(** The end of a constructor that throws: the [ComPtr] member is
    destroyed. *)
Lemma member_destroyed (what : string) (s : State) :
  (r ← self; ComPtr_dtor (shared_texture_ r);; ret (Thrown what)) s
  = Some (Thrown what,
          {| this := this s; instance_count_ := instance_count_ s;
             trace := trace s
               ++ (if is_null (shared_texture_ (this s)) then []
                   else [Release (shared_texture_ (this s))]) |}).
Proof.
  run. destruct (is_null (shared_texture_ (this s))); simpl;
    rewrite ?app_nil_r; [destruct s|]; reflexivity.
Qed.

(** Every returning constructor made the calls of
    [D3D11Renderer_ctor_calls] and ended as
    [D3D11Renderer_ctor_completion] says. *)
Lemma D3D11Renderer_ctor_trace (width height : Z) (mutex : HANDLE)
    (d : DeviceAnswers) (t : TextureAnswers) (n : Z) (tr : list Call)
    (c : Completion) (s : State) :
  D3D11Renderer_ctor width height mutex d t (fresh n tr) = Some (c, s) ->
  c = D3D11Renderer_ctor_completion d t
  /\ trace s = tr ++ D3D11Renderer_ctor_calls width height mutex d t
  /\ instance_count_ s = match c with Constructed => n + 1 | Thrown _ => n end.
Proof.
  unfold D3D11Renderer_ctor. intros Hrun.
  apply bind_returns in Hrun as (? & s0 & [= <- <-] & Hrun).
  apply bind_returns in Hrun as (? & s0' & [= <- <-] & Hrun).
  apply bind_returns in Hrun as (? & s1 & [= <- <-] & Hrun).
  apply bind_returns in Hrun as (ok & s2 & Hdev & Hrun).
  assert (Htr2 := Hdev).
  apply CreateD3D11Device_trace in Htr2; [|reflexivity].
  apply CreateD3D11Device_returns in Hdev; [|reflexivity].
  destruct Hdev as (Hok & Hdev & Hctx & Htex & Hh & Hm & Hw & Hht & Hn).
  cbn [this trace instance_count_ fresh with_mutex with_size storage
       shared_texture_ handle_ mutex_ width_ height_] in Htex, Hh, Hm, Hw,
    Hht, Hn, Htr2.
  assert (Hthis : this s2 = under_construction width height mutex d).
  { destruct (this s2). unfold under_construction. simpl in *. congruence. }
  unfold D3D11Renderer_ctor_completion, D3D11Renderer_ctor_calls.
  destruct (FAILED (device_hr d)) eqn:Hf; cbn [negb] in Hok; subst ok;
    cbn [negb] in Hrun.
  - rewrite member_destroyed in Hrun. injection Hrun as <- <-.
    cbn [trace instance_count_]. rewrite Htex, Htr2. cbn [is_null Z.eqb nullptr].
    rewrite !app_nil_r, <- !app_assoc. auto.
  - apply bind_returns in Hrun as (ok & s3 & Hcreate & Hrun).
    apply CreateTexture_returns in Hcreate.
    destruct Hcreate as (Hok & Htex3 & _ & _ & _ & _ & _ & _ & Hn3 & Htr3).
    rewrite Hthis in Htr3.
    destruct (texture_succeeds t) eqn:Hsucc; subst ok; cbn [negb] in Hrun.
    + apply bind_returns in Hrun as (? & s4 & Hadd & [= <- <-]).
      unfold add_instance_count in Hadd. cbv zeta in Hadd.
      destruct ((INT_MIN <=? instance_count_ s3 + 1)
                && (instance_count_ s3 + 1 <=? INT_MAX)); [|discriminate].
      injection Hadd as Hs4. subst s4. cbn [trace instance_count_].
      rewrite Htr3, Htr2, app_nil_r, <- !app_assoc.
      split; [reflexivity|]. split; [reflexivity | lia].
    + rewrite member_destroyed in Hrun. injection Hrun as <- <-.
      cbn [trace instance_count_]. rewrite Htex3, Htr3, Htr2.
      rewrite <- !app_assoc.
      split; [reflexivity|]. split; [reflexivity | lia].
Qed.

(** X5.  The constructor tells its two failures apart by the message of the
    exception, and stops at the first: when the device cannot be created,
    no texture creation is attempted.  Whatever the outcome, it creates one
    mutex and closes no handle, so the mutex of a constructor that throws
    stays open, and it creates the device at most once. *)
Theorem D3D11Renderer_ctor_exceptions (width height : Z) (mutex : HANDLE)
    (d : DeviceAnswers) (t : TextureAnswers) (n : Z) (tr : list Call) :
  device_contract d ->
  texture_contract t ->
  INT_MIN <= n < INT_MAX ->
  exists c s calls,
    D3D11Renderer_ctor width height mutex d t (fresh n tr) = Some (c, s)
    /\ trace s = tr ++ calls
    /\ (FAILED (device_hr d) = true ->
        c = Thrown "Unable to create Direct3D 11 device."
        /\ count is_texture_creation calls = 0%nat)
    /\ (FAILED (device_hr d) = false -> texture_succeeds t = false ->
        c = Thrown "Unable to create Direct3D 11 texture."
        /\ count is_texture_creation calls = 1%nat)
    /\ (FAILED (device_hr d) = false -> texture_succeeds t = true ->
        c = Constructed)
    /\ count is_create_mutex calls = 1%nat
    /\ count is_close_any calls = 0%nat
    /\ count is_device_creation calls = 1%nat.
Proof.
  intros Hd Ht Hn.
  destruct (D3D11Renderer_ctor_runs width height mutex d t n tr Hd Ht Hn)
    as (c & s & Hrun & _).
  destruct (D3D11Renderer_ctor_trace _ _ _ _ _ _ _ _ _ Hrun)
    as (Hc & Htr & _).
  exists c, s, (D3D11Renderer_ctor_calls width height mutex d t).
  split; [exact Hrun|]. split; [exact Htr|].
  subst c. unfold D3D11Renderer_ctor_completion.
  split; [|split; [|split; [|split; [|split]]]].
  - intros Hf. rewrite Hf. split; [reflexivity|].
    unfold D3D11Renderer_ctor_calls. rewrite Hf. count_calls.
  - intros Hf Hs. rewrite Hf, Hs. split; [reflexivity|].
    unfold D3D11Renderer_ctor_calls. rewrite Hf, Hs.
    rewrite count_cons, !count_app.
    replace (count is_texture_creation (CreateD3D11Device_calls d))
      with 0%nat by count_calls.
    count_calls.
  - intros Hf Hs. rewrite Hf, Hs. reflexivity.
  - count_calls.
  - count_calls.
  - count_calls.
Qed.

(** ** More on [CleanUp] and resize *)

(** X6.  [CleanUp] releases nothing twice on its own account: run again, it
    makes no call and changes nothing, and releasing the texture first and
    the device later, as a resize followed by the destructor does, is the
    same as releasing everything at once. *)
Theorem CleanUp_twice (release_device : bool) (s : State) :
  (CleanUp release_device;; CleanUp release_device) s
  = CleanUp release_device s
  /\ (CleanUp true;; CleanUp false) s = CleanUp true s
  /\ (CleanUp false;; CleanUp true) s = CleanUp true s.
Proof.
  destruct s as [[w h hd m dev ctx tex] n tr].
  repeat split;
    unfold bind; rewrite !CleanUp_runs; cbn [this trace instance_count_];
    unfold cleaned, CleanUp_calls; simpl;
    try destruct release_device; simpl;
    rewrite ?app_nil_r, <- ?app_assoc; reflexivity.
Qed.

Lemma to_UINT_int32 (n : Z) :
  - 2 ^ 31 <= n < 2 ^ 31 ->
  to_UINT n = if n <? 0 then n + 2 ^ 32 else n.
Proof.
  intros Hn. unfold to_UINT. destruct (Z.ltb_spec n 0).
  - rewrite <- (Z_mod_plus_full n 1 (2 ^ 32)).
    apply Z.mod_small. lia.
  - apply Z.mod_small. lia.
Qed.

(** X7.  A resize validates nothing: for every pair of [int32_t] dimensions that
    differs from the stored one, zero and negative values included, exactly
    one [CreateTexture2D] call is made, and its descriptor carries the
    dimensions converted to [UINT]: a negative one arrives as that value
    plus 2^32. *)
Theorem SetSize_passes_size_unchecked (width height : Z) (a : TextureAnswers)
    (s : State) :
  - 2 ^ 31 <= width < 2 ^ 31 ->
  - 2 ^ 31 <= height < 2 ^ 31 ->
  width <> width_ (this s) \/ height <> height_ (this s) ->
  d3d_11_device_ (this s) <> nullptr ->
  texture_contract a ->
  exists s' calls desc,
    SetSize width height a s = Some (tt, s')
    /\ trace s' = trace s ++ calls
    /\ count is_texture_creation calls = 1%nat
    /\ In (CreateTexture2D (d3d_11_device_ (this s)) desc
             (texture_hr a) (texture_out a)) calls
    /\ Width desc = (if width <? 0 then width + 2 ^ 32 else width)
    /\ Height desc = (if height <? 0 then height + 2 ^ 32 else height).
Proof.
  intros Hw Hh Hne Hdev Ha.
  destruct (SetSize_defined width height a s Hdev Ha) as (s' & Hrun).
  exists s',
    (CleanUp_calls false (this s)
     ++ CreateTexture_calls a
          (cleaned false (with_size width height (this s)))),
    (texture_desc (with_size width height (this s))).
  split; [exact Hrun|].
  apply SetSize_returns in Hrun; [|exact Hne].
  destruct Hrun as (_ & _ & _ & _ & _ & _ & _ & _ & Htr).
  split; [exact Htr|]. split; [|split; [|split]].
  - rewrite count_app.
    replace (count is_texture_creation (CleanUp_calls false (this s)))
      with 0%nat by count_calls.
    count_calls.
  - apply in_or_app. right. unfold CreateTexture_calls. simpl.
    left. reflexivity.
  - simpl. apply to_UINT_int32, Hw.
  - simpl. apply to_UINT_int32, Hh.
Qed.

(** X8.  Calling [SetSize] again with the size just asked for does nothing,
    also when the first call failed to create the texture: the size was
    stored before the attempt, so the second call sees it as current and
    makes no new attempt. *)
Theorem SetSize_again_no_retry (width height : Z) (a a' : TextureAnswers)
    (s s' : State) :
  SetSize width height a s = Some (tt, s') ->
  SetSize width height a' s' = Some (tt, s').
Proof.
  intros Hrun.
  assert (Hsize : width_ (this s') = width /\ height_ (this s') = height).
  { destruct (Z.eq_dec width (width_ (this s))) as [Hw | Hw];
      [destruct (Z.eq_dec height (height_ (this s))) as [Hh | Hh] |].
    - subst. revert Hrun. unfold SetSize. run. rewrite !Z.eqb_refl.
      simpl. intros [= <-]. auto.
    - apply SetSize_returns in Hrun; [tauto | auto].
    - apply SetSize_returns in Hrun; [tauto | auto]. }
  destruct Hsize as [Hw Hh].
  unfold SetSize. run. rewrite Hw, Hh, !Z.eqb_refl. reflexivity.
Qed.

(** X9.  A resize that succeeds exports the new texture: the object holds the
    texture [CreateTexture2D] returned and the handle [GetSharedHandle]
    returned for it.  The references balance: the resize takes two on the
    new texture (its creation, and line 164), and the next [CleanUp] gives
    two back (lines 70 and 71). *)
Theorem SetSize_success_balances (width height : Z) (a : TextureAnswers)
    (s : State) :
  width <> width_ (this s) \/ height <> height_ (this s) ->
  d3d_11_device_ (this s) <> nullptr ->
  texture_contract a ->
  texture_succeeds a = true ->
  texture_out a <> shared_texture_ (this s) ->
  texture_out a <> resource_out a ->
  exists s1 s2 calls,
    SetSize width height a s = Some (tt, s1)
    /\ shared_texture_ (this s1) = texture_out a
    /\ handle_ (this s1) = handle_out a
    /\ handle_ (this s1) <> NULL
    /\ CleanUp false s1 = Some (tt, s2)
    /\ trace s2 = trace s ++ calls
    /\ count (takes_reference (texture_out a)) calls = 2%nat
    /\ count (drops_reference (texture_out a)) calls = 2%nat.
Proof.
  intros Hne Hdev Ha Hsucc Hold Hres.
  destruct (SetSize_defined width height a s Hdev Ha) as (s1 & Hrun).
  destruct (texture_succeeds_true a Hsucc) as (Ht1 & Ht2 & Ht3).
  pose proof (texture_on_success a Ha Ht1) as Htex.
  pose proof (resource_on_success a Ha Ht2) as Hrsc.
  exists s1. eexists.
  exists (CleanUp_calls false (this s)
          ++ CreateTexture_calls a
               (cleaned false (with_size width height (this s)))
          ++ CleanUp_calls false (this s1)).
  split; [exact Hrun|].
  apply SetSize_returns in Hrun; [|exact Hne].
  destruct Hrun as (_ & _ & Htex1 & Hh1 & _ & _ & _ & _ & Htr).
  rewrite Ht1, Ht2 in Hh1. simpl in Hh1.
  split; [exact Htex1|]. split; [exact Hh1|].
  split; [rewrite Hh1; apply (handle_on_success a Ha Ht3)|].
  split; [apply CleanUp_runs|]. cbn [trace].
  split; [rewrite Htr, <- !app_assoc; reflexivity|].
  assert (E1 : (shared_texture_ (this s) =? texture_out a) = false)
    by (apply Z.eqb_neq; congruence).
  assert (E2 : (resource_out a =? texture_out a) = false)
    by (apply Z.eqb_neq; congruence).
  assert (S1 : SUCCEEDED (texture_hr a) = true)
    by (rewrite FAILED_SUCCEEDED, Ht1; reflexivity).
  assert (S2 : SUCCEEDED (resource_hr a) = true)
    by (rewrite FAILED_SUCCEEDED, Ht2; reflexivity).
  rewrite !count_app.
  assert (Hbefore :
    count (takes_reference (texture_out a)) (CleanUp_calls false (this s))
    = 0%nat
    /\ count (drops_reference (texture_out a)) (CleanUp_calls false (this s))
       = 0%nat).
  { unfold CleanUp_calls. rewrite app_nil_r.
    destruct (is_null (shared_texture_ (this s)));
      rewrite ?count_cons, ?count_nil; simpl; rewrite ?E1; auto. }
  assert (Hcreate :
    count (takes_reference (texture_out a))
      (CreateTexture_calls a (cleaned false (with_size width height (this s))))
    = 2%nat
    /\ count (drops_reference (texture_out a))
         (CreateTexture_calls a
            (cleaned false (with_size width height (this s))))
       = 0%nat).
  { unfold CreateTexture_calls. rewrite Ht1, Ht2, Ht3.
    cbn [cleaned shared_texture_ is_null nullptr Z.eqb app].
    rewrite !count_cons, count_nil. simpl.
    rewrite S1, S2, E2, Z.eqb_refl. auto. }
  assert (Hafter :
    count (takes_reference (texture_out a)) (CleanUp_calls false (this s1))
    = 0%nat
    /\ count (drops_reference (texture_out a)) (CleanUp_calls false (this s1))
       = 2%nat).
  { unfold CleanUp_calls. rewrite Htex1, (is_null_false _ Htex), app_nil_r.
    rewrite !count_cons, count_nil. simpl. rewrite Z.eqb_refl. auto. }
  destruct Hbefore as [-> ->], Hcreate as [-> ->], Hafter as [-> ->].
  split; reflexivity.
Qed.

(** X10.  When the texture is allocated but a later step of its creation fails
    in a resize ([As] or [GetSharedHandle]), the call has reported the
    failure on [std::cout] only: the new texture stays in the object, no
    extra reference was taken on it (line 164 is not reached), and the
    handle field is the old one after a failed [As] and whatever
    [GetSharedHandle] left after a failed export. *)
Theorem SetSize_export_failure (width height : Z) (a : TextureAnswers)
    (s : State) :
  width <> width_ (this s) \/ height <> height_ (this s) ->
  d3d_11_device_ (this s) <> nullptr ->
  texture_contract a ->
  FAILED (texture_hr a) = false ->
  FAILED (resource_hr a) = true \/ FAILED (handle_hr a) = true ->
  exists s' calls,
    SetSize width height a s = Some (tt, s')
    /\ shared_texture_ (this s') = texture_out a
    /\ texture_out a <> nullptr
    /\ handle_ (this s') =
         (if FAILED (resource_hr a) then handle_ (this s) else handle_out a)
    /\ trace s' = trace s ++ calls
    /\ count is_add_ref calls = 0%nat
    /\ In (failure_line (if FAILED (resource_hr a) then "ID3D11Texture2D::As"
                         else "IDXGIResource::GetSharedHandle")) calls.
Proof.
  intros Hne Hdev Ha Ht1 Hlate.
  destruct (SetSize_defined width height a s Hdev Ha) as (s' & Hrun).
  exists s'. eexists. split; [exact Hrun|].
  apply SetSize_returns in Hrun; [|exact Hne].
  destruct Hrun as (_ & _ & Htex & Hh & _ & _ & _ & _ & Htr).
  rewrite Ht1 in Hh. simpl in Hh.
  split; [exact Htex|].
  split; [apply (texture_on_success a Ha Ht1)|].
  split; [exact Hh|]. split; [exact Htr|].
  unfold CreateTexture_calls, CleanUp_calls. rewrite Ht1. split.
  - rewrite count_app.
    destruct Hlate as [H | H]; rewrite H; count_calls.
  - apply in_or_app. right. simpl. right. right.
    destruct (FAILED (resource_hr a)) eqn:Hr.
    + left. reflexivity.
    + destruct Hlate as [H | H]; [discriminate|]. rewrite H.
      right. left. reflexivity.
Qed.

(** ** Sequences of public calls *)












(** X14.  The destructor, on any object: it releases what the object holds in
    the order texture, context, device, each only if present, then
    releases and closes the mutex, without having waited on it; the
    instance count goes down by one, and the exported handle field is left
    as it was. *)
Theorem D3D11Renderer_dtor_order (s : State) :
  INT_MIN < instance_count_ s <= INT_MAX ->
  exists s',
    D3D11Renderer_dtor s = Some (tt, s')
    /\ trace s' = trace s
         ++ (if shared_texture_ (this s) =? nullptr then []
             else [Release (shared_texture_ (this s));
                   Release (shared_texture_ (this s))])
         ++ (if d3d_11_device_context_ (this s) =? nullptr then []
             else [Release (d3d_11_device_context_ (this s))])
         ++ (if d3d_11_device_ (this s) =? nullptr then []
             else [Release (d3d_11_device_ (this s))])
         ++ [ReleaseMutex (mutex_ (this s)); CloseHandle (mutex_ (this s))]
    /\ instance_count_ s' = instance_count_ s - 1
    /\ shared_texture_ (this s') = nullptr
    /\ d3d_11_device_context_ (this s') = nullptr
    /\ d3d_11_device_ (this s') = nullptr
    /\ handle_ (this s') = handle_ (this s)
    /\ mutex_ (this s') = mutex_ (this s).
Proof.
  intros Hn. rewrite (D3D11Renderer_dtor_runs s Hn).
  eexists. split; [reflexivity|]. cbn [trace instance_count_ this].
  split.
  - unfold CleanUp_calls, is_null. rewrite <- !app_assoc. reflexivity.
  - repeat split.
Qed.

(** X15.  The constructor does not look at what [CreateMutex] returned: with
    a null handle it completes all the same, and each flush of the object
    then waits on, and releases, the null handle. *)
Theorem D3D11Renderer_ctor_unchecked_mutex (width height : Z)
    (d : DeviceAnswers) (t : TextureAnswers) (n : Z) (tr : list Call) :
  device_contract d ->
  texture_contract t ->
  INT_MIN <= n < INT_MAX ->
  FAILED (device_hr d) = false ->
  texture_succeeds t = true ->
  exists s s',
    D3D11Renderer_ctor width height NULL d t (fresh n tr)
    = Some (Constructed, s)
    /\ mutex_ (this s) = NULL
    /\ CopyTexture s = Some (tt, s')
    /\ In (WaitForSingleObject NULL INFINITE) (trace s')
    /\ In (ReleaseMutex NULL) (trace s').
Proof.
  intros Hd Ht Hn Hf Hsucc.
  destruct (D3D11Renderer_ctor_runs width height NULL d t n tr Hd Ht Hn)
    as (c & s & Hctor & Hc).
  destruct (D3D11Renderer_ctor_trace _ _ _ _ _ _ _ _ _ Hctor)
    as (Hcomp & _).
  unfold D3D11Renderer_ctor_completion in Hcomp.
  rewrite Hf, Hsucc in Hcomp. subst c.
  destruct Hc as (_ & _ & Hthis & _).
  exists s. eexists. split; [exact Hctor|].
  split; [rewrite Hthis; reflexivity|].
  split; [apply CopyTexture_runs|]. cbn [trace].
  rewrite Hthis. cbn [mutex_ d3d_11_device_context_].
  split; apply in_or_app; right; simpl.
  - left. reflexivity.
  - right. apply in_or_app. right. left. reflexivity.
Qed.

(** X16.  On an older host with an adapter, device creation gives back its
    reference to the DXGI factory, once, but never the one to the adapter
    [EnumAdapters] handed out (lines 108-113): the adapter is not released
    by [CreateD3D11Device]. *)
Theorem CreateD3D11Device_keeps_adapter (a : DeviceAnswers) (s : State) :
  windows10 a = false ->
  d3d_11_device_ (this s) = nullptr ->
  FAILED (device_hr a) = false ->
  device_out a <> nullptr ->
  dxgi a <> nullptr ->
  NoDup [dxgi a; adapter0 a; device_out a; context_out a; dxgi_device_out a] ->
  exists s' calls,
    CreateD3D11Device a s = Some (true, s')
    /\ trace s' = trace s ++ calls
    /\ count (takes_reference (dxgi a)) calls = 1%nat
    /\ count (drops_reference (dxgi a)) calls = 1%nat
    /\ count (takes_reference (adapter0 a)) calls = 1%nat
    /\ count (drops_reference (adapter0 a)) calls = 0%nat.
Proof.
  intros Hold Hnull Hok Hdev Hdxgi Hnd.
  destruct (CreateD3D11Device_succeeds a s Hnull Hok Hdev)
    as (s' & Hrun & Htr & _).
  exists s', (CreateD3D11Device_calls a).
  split; [exact Hrun|]. split; [exact Htr|].
  inversion Hnd as [|? ? H1 Hnd1]; subst.
  inversion Hnd1 as [|? ? H2 _]; subst.
  simpl in H1, H2.
  assert (E1 : (adapter0 a =? dxgi a) = false)
    by (apply Z.eqb_neq; intuition congruence).
  assert (E2 : (device_out a =? dxgi a) = false)
    by (apply Z.eqb_neq; intuition congruence).
  assert (E3 : (context_out a =? dxgi a) = false)
    by (apply Z.eqb_neq; intuition congruence).
  assert (E4 : (dxgi_device_out a =? dxgi a) = false)
    by (apply Z.eqb_neq; intuition congruence).
  assert (E5 : (dxgi a =? adapter0 a) = false)
    by (apply Z.eqb_neq; intuition congruence).
  assert (E6 : (device_out a =? adapter0 a) = false)
    by (apply Z.eqb_neq; intuition congruence).
  assert (E7 : (context_out a =? adapter0 a) = false)
    by (apply Z.eqb_neq; intuition congruence).
  assert (E8 : (dxgi_device_out a =? adapter0 a) = false)
    by (apply Z.eqb_neq; intuition congruence).
  unfold CreateD3D11Device_calls, enumeration_calls, priority_calls.
  rewrite Hold, Hok, (is_null_false _ Hdxgi).
  destruct (SUCCEEDED (dxgi_device_hr a)), (is_null (dxgi_device_out a));
    unfold count; simpl;
    rewrite ?E1, ?E2, ?E3, ?E4, ?E5, ?E6, ?E7, ?E8, ?Z.eqb_refl,
      ?andb_false_r; simpl; repeat split.
Qed.

(** *** The further theorems at concrete inputs *)

Lemma CreateD3D11Device_recent_windows_witness :
  windows10 Session.device_created = true
  /\ exists ok s',
       CreateD3D11Device Session.device_created (fresh 0 []) = Some (ok, s')
       /\ count is_enumeration (trace s') = 0%nat.
Proof.
  split; [reflexivity|].
  destruct (CreateD3D11Device_recent_windows Session.device_created
              (fresh 0 []))
    as (ok & s' & rest & Hrun & _ & Hcount);
    [reflexivity | reflexivity | contract_holds |].
  exists ok, s'. split; [exact Hrun | exact Hcount].
Defined.

Lemma CreateD3D11Device_failure_witness :
  FAILED (device_hr Session.device_refused) = true
  /\ exists s',
       CreateD3D11Device Session.device_refused (fresh 0 [])
       = Some (false, s').
Proof.
  split; [reflexivity|].
  destruct (CreateD3D11Device_failure Session.device_refused (fresh 0 []))
    as (s' & calls & Hrun & _); [reflexivity | reflexivity |].
  exists s'. exact Hrun.
Defined.

Lemma CreateD3D11Device_priority_best_effort_witness :
  SUCCEEDED (dxgi_device_hr Usage.no_dxgi_device) = false
  /\ exists s' calls,
       CreateD3D11Device Usage.no_dxgi_device (fresh 0 []) = Some (true, s')
       /\ trace s' = [] ++ calls
       /\ count is_set_priority calls = 0%nat.
Proof.
  split; [reflexivity|].
  destruct (CreateD3D11Device_priority_best_effort Usage.no_dxgi_device
              (fresh 0 []))
    as (s' & calls & Hrun & Htr & Hcount & _);
    [reflexivity | reflexivity | vm_compute; discriminate |].
  exists s', calls. auto.
Defined.

Lemma CreateD3D11Device_logs_feature_level_witness :
  In (level Usage.no_dxgi_device) feature_levels
  /\ exists s' major minor,
       CreateD3D11Device Usage.no_dxgi_device (fresh 0 []) = Some (true, s')
       /\ level Usage.no_dxgi_device = major * 0x1000 + minor * 0x100
       /\ 0 <= minor < 16.
Proof.
  assert (Hin : In (level Usage.no_dxgi_device) feature_levels)
    by (right; right; left; reflexivity).
  split; [exact Hin|].
  destruct (CreateD3D11Device_logs_feature_level Usage.no_dxgi_device
              (fresh 0 []))
    as (s' & major & minor & Hrun & _ & Hminor & _ & _ & Hlevels);
    [reflexivity | reflexivity | vm_compute; discriminate |].
  exists s', major, minor. destruct (Hlevels Hin) as [Heq _]. auto.
Defined.

Lemma D3D11Renderer_ctor_exceptions_witness :
  FAILED (device_hr Session.device_refused) = true
  /\ exists c s,
       D3D11Renderer_ctor 1920 1080 Session.mutex Session.device_refused
         Session.texture_created (fresh 0 []) = Some (c, s)
       /\ c = Thrown "Unable to create Direct3D 11 device.".
Proof.
  split; [reflexivity|].
  destruct (D3D11Renderer_ctor_exceptions 1920 1080 Session.mutex
              Session.device_refused Session.texture_created 0 [])
    as (c & s & calls & Hrun & _ & Hdevice & _);
    [contract_holds | contract_holds | vm_compute; split; congruence |].
  exists c, s. split; [exact Hrun|]. apply Hdevice. reflexivity.
Defined.

Lemma SetSize_passes_size_unchecked_witness :
  exists s' calls desc,
    SetSize (-1) 0 Session.out_of_memory Session.constructed = Some (tt, s')
    /\ In (CreateTexture2D (d3d_11_device_ (this Session.constructed)) desc
             (texture_hr Session.out_of_memory)
             (texture_out Session.out_of_memory)) calls
    /\ Width desc = 2 ^ 32 - 1
    /\ Height desc = 0.
Proof.
  destruct (SetSize_passes_size_unchecked (-1) 0 Session.out_of_memory
              Session.constructed)
    as (s' & calls & desc & Hrun & _ & _ & Hin & Hw & Hh);
    [ vm_compute; split; congruence | vm_compute; split; congruence
    | left; vm_compute; discriminate | vm_compute; discriminate
    | contract_holds |].
  exists s', calls, desc. auto.
Defined.

Lemma SetSize_again_no_retry_witness :
  SetSize 1280 720 Session.out_of_memory Session.constructed
  = Some (tt, Session.allocation_failed)
  /\ SetSize 1280 720 Session.texture_created Session.allocation_failed
     = Some (tt, Session.allocation_failed).
Proof.
  split; [reflexivity|].
  apply (SetSize_again_no_retry 1280 720 Session.out_of_memory
           Session.texture_created Session.constructed
           Session.allocation_failed).
  reflexivity.
Defined.

Lemma SetSize_success_balances_witness :
  texture_succeeds Usage.texture_recreated = true
  /\ exists s1,
       SetSize 640 480 Usage.texture_recreated Session.constructed
       = Some (tt, s1)
       /\ handle_ (this s1) = 0xa4.
Proof.
  split; [reflexivity|].
  destruct (SetSize_success_balances 640 480 Usage.texture_recreated
              Session.constructed)
    as (s1 & s2 & calls & Hrun & _ & Hh & _);
    [ left; vm_compute; discriminate | vm_compute; discriminate
    | contract_holds | reflexivity | vm_compute; discriminate
    | vm_compute; discriminate |].
  exists s1. split; [exact Hrun | exact Hh].
Defined.

Lemma SetSize_export_failure_witness :
  FAILED (resource_hr Usage.no_resource) = true
  /\ exists s',
       SetSize 1280 720 Usage.no_resource Session.constructed = Some (tt, s')
       /\ shared_texture_ (this s') = 0x70
       /\ handle_ (this s') = 0x44.
Proof.
  split; [reflexivity|].
  destruct (SetSize_export_failure 1280 720 Usage.no_resource
              Session.constructed)
    as (s' & calls & Hrun & Htex & _ & Hh & _);
    [ left; vm_compute; discriminate | vm_compute; discriminate
    | contract_holds | reflexivity | left; reflexivity |].
  exists s'. auto.
Defined.




Lemma D3D11Renderer_dtor_order_witness :
  INT_MIN < instance_count_ Session.export_failed <= INT_MAX
  /\ exists s',
       D3D11Renderer_dtor Session.export_failed = Some (tt, s')
       /\ instance_count_ s' = 0
       /\ handle_ (this s') = handle_ (this Session.export_failed).
Proof.
  assert (Hn : INT_MIN < instance_count_ Session.export_failed <= INT_MAX)
    by (vm_compute; split; congruence).
  split; [exact Hn|].
  destruct (D3D11Renderer_dtor_order Session.export_failed Hn)
    as (s' & Hrun & _ & Hcount & _ & _ & _ & Hh & _).
  exists s'. auto.
Defined.

Lemma D3D11Renderer_ctor_unchecked_mutex_witness :
  exists s s',
    D3D11Renderer_ctor 1920 1080 NULL Session.device_created
      Session.texture_created (fresh 0 []) = Some (Constructed, s)
    /\ CopyTexture s = Some (tt, s')
    /\ In (WaitForSingleObject NULL INFINITE) (trace s').
Proof.
  destruct (D3D11Renderer_ctor_unchecked_mutex 1920 1080
              Session.device_created Session.texture_created 0 [])
    as (s & s' & Hctor & _ & Hflush & Hwait & _);
    [ contract_holds | contract_holds | vm_compute; split; congruence
    | reflexivity | reflexivity |].
  exists s, s'. auto.
Defined.

Lemma CreateD3D11Device_keeps_adapter_witness :
  exists s' calls,
    CreateD3D11Device Usage.old_host (fresh 0 []) = Some (true, s')
    /\ count (takes_reference 0x58) calls = 1%nat
    /\ count (drops_reference 0x58) calls = 0%nat.
Proof.
  destruct (CreateD3D11Device_keeps_adapter Usage.old_host (fresh 0 []))
    as (s' & calls & Hrun & _ & _ & _ & Htake & Hdrop);
    [ reflexivity | reflexivity | reflexivity | vm_compute; discriminate
    | vm_compute; discriminate
    | repeat (apply NoDup_cons;
              [vm_compute; intuition discriminate |]); apply NoDup_nil |].
  exists s', calls. auto.
Defined.
